(** * wmr: the npm middleware and the npm bundle pipeline

    A shallow embedding of
      - the npm middleware ([handleAsset], [npmMiddleware], [bundleNpmModule]
        and the load hooks of the plugins it declares inline), and
      - [npmBundle] of plugins/npm-plugin-2/npm-bundle.js,
    together with the properties of the on-demand bundling pipeline.

    Strings are JavaScript strings seen through their UTF-8 bytes (what
    [Buffer.from(s)] and [Buffer.byteLength(s)] see): a [string] of Rocq is
    the byte sequence of a well-formed JavaScript string. *)

From Stdlib Require Import Ascii String NArith Bool.
From stdpp Require Import gmap strings list.

Local Open Scope string_scope.

(** ** Completions of JavaScript calls *)

(** A call either returns a value or throws (for an [async] function: its
    promise is fulfilled or rejected). Thrown values are identified by their
    message. *)
Inductive Result (A : Type) : Type :=
| Ok (a : A)
| Throw (e : string).
Arguments Ok {A} a.
Arguments Throw {A} e.

Definition is_ok {A} (r : Result A) : bool :=
  match r with Ok _ => true | Throw _ => false end.

(** ** The pieces of the JavaScript runtime the code calls *)
Module JS.

(** [String(v)] for [v] a string or [undefined]. *)
Definition String_ (v : option string) : string :=
  match v with
  | Some s => s
  | None => "undefined"
  end.

(** Truthiness of a string or [undefined]: only [undefined] and the empty
    string are falsy. *)
Definition truthy (v : option string) : bool :=
  match v with
  | Some EmptyString => false
  | Some _ => true
  | None => false
  end.

(** [s.startsWith(p)]. *)
Definition startsWith (s p : string) : bool := String.prefix p s.

(** [s] without the suffix [p], when it ends with it: the part of [s]
    before the first place at which what is left of [s] is [p]. *)
Fixpoint stripSuffix (p s : string) : option string :=
  if String.eqb s p then Some EmptyString
  else
    match s with
    | EmptyString => None
    | String c rest =>
        match stripSuffix p rest with
        | Some r => Some (String c r)
        | None => None
        end
    end.

(** [s.endsWith(p)]. *)
Definition endsWith (s p : string) : bool :=
  match stripSuffix p s with
  | Some _ => true
  | None => false
  end.

(** [s.includes(c)] for a character [c]. *)
Fixpoint hasChar (c : ascii) (s : string) : bool :=
  match s with
  | EmptyString => false
  | String d rest => Ascii.eqb c d || hasChar c rest
  end.

(** [Buffer.byteLength(s)]. *)
Definition byteLength (s : string) : nat := String.length s.

(** *** [Buffer.from(s).toString('base64')] (RFC 4648, with padding) *)

(** A 6-bit group, most significant bit first. *)
Definition sextet : Type := (bool * bool * bool * bool * bool * bool)%type.

Definition sextet_to_N (s : sextet) : N :=
  let '(b5, b4, b3, b2, b1, b0) := s in
  (N.b2n b5 * 32 + N.b2n b4 * 16 + N.b2n b3 * 8
   + N.b2n b2 * 4 + N.b2n b1 * 2 + N.b2n b0)%N.

Definition alphabet : string :=
  "ABCDEFGHIJKLMNOPQRSTUVWXYZabcdefghijklmnopqrstuvwxyz0123456789+/".

Definition pad : ascii := "="%char.

Definition b64char (s : sextet) : ascii :=
  match String.get (N.to_nat (sextet_to_N s)) alphabet with
  | Some c => c
  | None => pad
  end.

(** Rocq's [Ascii] lists the bits of a byte least significant first. The
    three bytes of a group are cut into four sextets; a last group of one or
    two bytes is completed with zero bits and padded with [=]. *)
Fixpoint base64 (s : string) : string :=
  match s with
  | EmptyString => EmptyString
  | String (Ascii a0 a1 a2 a3 a4 a5 a6 a7) EmptyString =>
      String (b64char (a7, a6, a5, a4, a3, a2))
     (String (b64char (a1, a0, false, false, false, false))
     (String pad (String pad EmptyString)))
  | String (Ascii a0 a1 a2 a3 a4 a5 a6 a7)
      (String (Ascii b0 b1 b2 b3 b4 b5 b6 b7) EmptyString) =>
      String (b64char (a7, a6, a5, a4, a3, a2))
     (String (b64char (a1, a0, b7, b6, b5, b4))
     (String (b64char (b3, b2, b1, b0, false, false))
     (String pad EmptyString)))
  | String (Ascii a0 a1 a2 a3 a4 a5 a6 a7)
      (String (Ascii b0 b1 b2 b3 b4 b5 b6 b7)
      (String (Ascii c0 c1 c2 c3 c4 c5 c6 c7) rest)) =>
      String (b64char (a7, a6, a5, a4, a3, a2))
     (String (b64char (a1, a0, b7, b6, b5, b4))
     (String (b64char (b3, b2, b1, b0, c7, c6))
     (String (b64char (c5, c4, c3, c2, c1, c0))
     (base64 rest))))
  end.

(** The inverse of [b64char]: the position of a character in the alphabet,
    and the sextet of a position. *)
Fixpoint indexIn (c : ascii) (s : string) : N :=
  match s with
  | EmptyString => 0
  | String d rest => if Ascii.eqb c d then 0 else N.succ (indexIn c rest)
  end.

Definition sextet_of_N (n : N) : sextet :=
  (N.testbit n 5, N.testbit n 4, N.testbit n 3,
   N.testbit n 2, N.testbit n 1, N.testbit n 0).

(** *** [JSON.stringify(s)] for a string [s] *)

Definition hexDigit (n : N) : ascii :=
  match String.get (N.to_nat n) "0123456789abcdef" with
  | Some c => c
  | None => "0"%char
  end.

Definition dquote : string := String (ascii_of_N 34) EmptyString.

(** The escape of one byte inside a JSON string literal: the quote, the
    backslash and the control characters are escaped, everything else is
    copied. *)
Definition jsonEscape (c : ascii) : string :=
  let n := N_of_ascii c in
  if (n =? 34)%N then "\" +:+ dquote
  else if (n =? 92)%N then "\\"
  else if (n =? 8)%N then "\b"
  else if (n =? 9)%N then "\t"
  else if (n =? 10)%N then "\n"
  else if (n =? 12)%N then "\f"
  else if (n =? 13)%N then "\r"
  else if (n <? 32)%N then
    "\u00" +:+ String (hexDigit (n / 16))
                (String (hexDigit (n mod 16)) EmptyString)
  else String c EmptyString.

Fixpoint jsonEscapeAll (s : string) : string :=
  match s with
  | EmptyString => EmptyString
  | String c rest => jsonEscape c +:+ jsonEscapeAll rest
  end.

Definition JSON_stringify (s : string) : string :=
  dquote +:+ jsonEscapeAll s +:+ dquote.

(** A scanner of string literals: after the opening quote, the closing
    quote is the first quote that is not escaped, and it is the last
    character. *)
Fixpoint closesAtEnd (escaped : bool) (s : string) : bool :=
  match s with
  | EmptyString => false
  | String c rest =>
      if escaped then closesAtEnd false rest
      else if Ascii.eqb c (ascii_of_N 34) then String.eqb rest EmptyString
      else if Ascii.eqb c (ascii_of_N 92) then closesAtEnd true rest
      else closesAtEnd false rest
  end.

Definition isStringLiteral (s : string) : bool :=
  match s with
  | String c rest => Ascii.eqb c (ascii_of_N 34) && closesAtEnd false rest
  | EmptyString => false
  end.

(** *** [path.join] of Node (POSIX flavour) *)

Definition slash : ascii := "/"%char.

(** [s.split('/')]. *)
Fixpoint splitSlash (s : string) : list string :=
  match s with
  | EmptyString => [EmptyString]
  | String c rest =>
      if Ascii.eqb c slash then EmptyString :: splitSlash rest
      else match splitSlash rest with
           | seg :: segs => String c seg :: segs
           | [] => [String c EmptyString]
           end
  end.

Fixpoint joinSlash (segs : list string) : string :=
  match segs with
  | [] => EmptyString
  | [seg] => seg
  | seg :: segs' => seg +:+ "/" +:+ joinSlash segs'
  end.

(** One step of Node's [normalizeString] on the stack of segments kept so
    far (top first): empty segments and [.] are dropped, [..] removes the
    segment before it, or is kept when there is none and the path is
    relative. *)
Definition pushSegment (allowAboveRoot : bool) (stack : list string)
    (seg : string) : list string :=
  if String.eqb seg EmptyString || String.eqb seg "." then stack
  else if String.eqb seg ".." then
    match stack with
    | top :: below =>
        if String.eqb top ".."
        then (if allowAboveRoot then ".." :: stack else stack)
        else below
    | [] => if allowAboveRoot then [".."] else []
    end
  else seg :: stack.

Definition normalizeString (p : string) (allowAboveRoot : bool) : string :=
  joinSlash (rev (fold_left (pushSegment allowAboveRoot) (splitSlash p) [])).

Definition lastChar (s : string) : option ascii :=
  String.get (String.length s - 1) s.

Definition isSlash (c : option ascii) : bool :=
  match c with
  | Some c => Ascii.eqb c slash
  | None => false
  end.

(** [path.normalize(p)]. *)
Definition path_normalize (p : string) : string :=
  if String.eqb p EmptyString then "."
  else
    let isAbsolute := isSlash (String.get 0 p) in
    let trailingSeparator := isSlash (lastChar p) in
    let r := normalizeString p (negb isAbsolute) in
    if String.eqb r EmptyString then
      (if isAbsolute then "/" else if trailingSeparator then "./" else ".")
    else
      let r := if trailingSeparator then r +:+ "/" else r in
      if isAbsolute then "/" +:+ r else r.

(** The message of the [TypeError] of Node for a path that is [undefined]:
    the name of the argument is quoted. *)
Definition pathIsUndefined : string :=
  "The " +:+ dquote +:+ "path" +:+ dquote
  +:+ " argument must be of type string. Received undefined".

(** [path.join(a, b)]: an argument that is not a string is a [TypeError];
    empty arguments are skipped. *)
Definition path_join (a : option string) (b : string) : Result string :=
  match a with
  | None => Throw pathIsUndefined
  | Some a =>
      let joined :=
        if String.eqb a EmptyString then b
        else if String.eqb b EmptyString then a
        else a +:+ "/" +:+ b in
      Ok (path_normalize joined)
  end.

(** [s] without the prefix [p], when it has it. *)
Fixpoint stripPrefix (p s : string) : option string :=
  match p, s with
  | EmptyString, _ => Some s
  | String a p', String b s' =>
      if Ascii.eqb a b then stripPrefix p' s' else None
  | String _ _, EmptyString => None
  end.

End JS.

(** ** The npm middleware *)
Module NpmMiddleware.

(** *** Data *)

(** The object [normalizeSpecifier] returns; [resolvePackageVersion] fills
    in its [version]. *)
Record Meta := {
  module_ : string;
  version : string;
  path : string;
  specifier : string
}.

(** What the handler reads of [new URL(req.url, 'https://localhost')]. *)
Record Url := {
  pathname : string;
  searchParams : list (string * string)
}.

Record Request := {
  url : string;
  headers : gmap string string
}.

(** The options of [npmMiddleware]; an absent field is [undefined]. *)
Record Options := {
  source : option string;
  alias : option (gmap string string);
  optimize : option bool;
  cwd : option string
}.

Inductive HeaderValue :=
| HStr (s : string)
| HNum (n : nat).

Record OutputChunk := {
  fileName : string;
  code : string
}.

(** The compiler's warm cache: the modules of the last graph, by id. *)
Definition RollupCache : Type := list (string * string).

(** What [rollup.rollup] resolves to: [bundle.cache], and the completion of
    [bundle.generate] with the options of [bundleNpmModule]. *)
Record RollupBuild := {
  cache : RollupCache;
  generate : Result (list OutputChunk)
}.

(** The stages of the pipeline of [bundleNpmModule], with the options each
    is built from. [no_builtins], [npm_asset] and [never_disk] are declared
    inline in the source; the others are imported. *)
Inductive Plugin :=
| nodeBuiltinsPlugin
| aliasPlugin (alias : option (gmap string string))
| npmPlugin (publicPath : string)
| processGlobalPlugin
| commonjs
| json
| no_builtins
| wmrStylesPlugin (alias : option (gmap string string)) (root : option string)
| urlPlugin (root : option string) (alias : option (gmap string string))
| defaultLoaders
| npm_asset (cwd : option string)
| never_disk.

(** The effects of a request on its collaborators, in the order they
    happen. Writes to the console are left out. *)
Inductive Event :=
| EResolvePackageVersion (meta : Meta)
| ESetHeader (name : string) (value : string)
| EWriteHead (status : nat) (hdrs : list (string * HeaderValue))
| EEnd (data : option string)
| ENext (e : string)
| ELoadPackageFile (meta : Meta)
| EGetCachedBundle (etag : string)
| ESendCachedBundle (cached : string)
| ERollup (input : string)
| EGenerate
| ESetCachedBundle (etag : string) (code : string)
| EEnqueueCompress (etag : string).

Definition isSetCachedBundle (e : Event) : bool :=
  match e with
  | ESetCachedBundle _ _ => true
  | _ => false
  end.

(** The collaborators whose code is in other files: the URL parser of the
    platform, the specifier normaliser and the registry, the mime table,
    the load hooks of the imported plugins, and the compiler (which module
    ids it asks the load hooks for, its read of a module no hook supplies,
    the words with which it names the importer of a module in an error,
    [ (imported by <importer>)] or nothing for an entry, and what it makes of
    the loaded modules). *)
Record Host := {
  parseURL : string -> Result Url;
  normalizeSpecifier : string -> Result Meta;
  resolvePackageVersion : Meta -> Result Meta;
  getMimeType : string -> option string;
  loadPackageFile : Meta -> Result string;
  importedLoad : Plugin -> string -> Result (option string);
  moduleIds : string -> list string;
  readFile : string -> Result string;
  importedBy : string -> string;
  link : string -> option RollupCache -> list (string * string) ->
         Result RollupBuild
}.

(** The state of the process: the module-level variable [npmCache], the
    bundles the Cache Manager holds, and the effects so far. *)
Record World := {
  npmCache : option RollupCache;
  bundles : gmap string string;
  log : list Event
}.

(** *** A state and exception monad for the handlers *)

(** A handler is run from its call to its completion, as one step on the
    state. What other requests do to the state while a handler waits at one
    of its [await]s is not part of the model: the properties below are about
    one request and about what it does itself. *)
Definition M (A : Type) : Type := World -> Result A * World.

Definition ret {A} (a : A) : M A := fun w => (Ok a, w).

Definition bind {A B} (m : M A) (k : A -> M B) : M B :=
  fun w =>
    match m w with
    | (Ok a, w') => k a w'
    | (Throw e, w') => (Throw e, w')
    end.

Definition throw {A} (e : string) : M A := fun w => (Throw e, w).

(** A call of a collaborator that does not touch the state. *)
Definition call {A} (r : Result A) : M A := fun w => (r, w).

(** The state after the effects [es]. *)
Definition logged (w : World) (es : list Event) : World :=
  {| npmCache := npmCache w; bundles := bundles w; log := log w ++ es |}.

Definition emit (e : Event) : M unit := fun w => (Ok tt, logged w [e]).

(** [try { body } catch (e) { handler(e) }]. *)
Definition tryCatch {A} (body : M A) (handler : string -> M A) : M A :=
  fun w =>
    match body w with
    | (Ok a, w') => (Ok a, w')
    | (Throw e, w') => handler e w'
    end.

Definition getNpmCache : M (option RollupCache) :=
  fun w => (Ok (npmCache w), w).

Definition setNpmCache (c : option RollupCache) : M unit :=
  fun w =>
    (Ok tt, {| npmCache := c; bundles := bundles w; log := log w |}).

Notation "x <- m ;; k" := (bind m (fun x => k))
  (at level 100, m at next level, right associativity).
Notation "m ;;; k" := (bind m (fun _ => k))
  (at level 100, right associativity).

(** *** The Cache Manager *)

(** Modelled from the spec: [getCachedBundle] of npm-middleware-cache.js,
    which is not among the sources. [lookup(key)] gives the entry stored
    under the key, if any. *)
Definition getCachedBundle (etag : string) (meta : Meta)
    (cwd : option string) : M (option string) :=
  emit (EGetCachedBundle etag);;;
  fun w => (Ok (bundles w !! etag), w).

(** Modelled from the spec: [setCachedBundle] of npm-middleware-cache.js,
    which is not among the sources. [store(key, bytes, meta)] writes the
    entry of the key. *)
Definition setCachedBundle (etag code : string) (meta : Meta)
    (cwd : option string) : M unit :=
  emit (ESetCachedBundle etag code);;;
  fun w =>
    (Ok tt, {| npmCache := npmCache w;
               bundles := <[etag := code]> (bundles w);
               log := log w |}).

Definition sendCachedBundle (cached : string) : M unit :=
  emit (ESendCachedBundle cached).

Definition enqueueCompress (etag : string) : M unit :=
  emit (EEnqueueCompress etag).

(** *** The regular expressions of the handler *)

(** [s.replace(/^\//, '')]. *)
Definition stripLeadingSlash (s : string) : string :=
  match JS.stripPrefix "/" s with
  | Some rest => rest
  | None => s
  end.

(** [s.replace(/-(gz|br)$/g, '')]: [$] matches at the end of the string
    only, so at most one suffix is removed. *)
Definition stripCompressionSuffix (s : string) : string :=
  match JS.stripSuffix "-gz" s with
  | Some r => r
  | None =>
      match JS.stripSuffix "-br" s with
      | Some r => r
      | None => s
      end
  end.

Definition stylesheetExtensions : list string :=
  [".css"; ".scss"; ".sass"; ".less"].

(** [/\.(css|s[ac]ss|less)$/.test(p)]. *)
Definition isStylesheetPath (p : string) : bool :=
  existsb (JS.endsWith p) stylesheetExtensions.

(** [/\.((css|s[ac]ss|less)|wasm|txt|json)$/.test(p)]. *)
Definition isAssetPath (p : string) : bool :=
  isStylesheetPath p || existsb (JS.endsWith p) [".wasm"; ".txt"; ".json"].

(** [url.searchParams.has(name)]. *)
Definition searchParams_has (u : Url) (name : string) : bool :=
  existsb (fun kv => String.eqb (fst kv) name) (searchParams u).

(** *** [handleAsset] *)

(** The source of the proxy module: one import of the style loader of the
    runtime, and one call of it on the literal [specifier]. *)
Definition proxyModule (specifier : string) : string :=
  "import{style}from '/_wmr.js';" +:+ String (ascii_of_N 10) EmptyString
  +:+ "style(" +:+ specifier +:+ ");".

(** [type || 'text/plain']. *)
Definition orTextPlain (type : option string) : string :=
  if JS.truthy type then JS.String_ type else "text/plain".

Definition handleAsset (host : Host) (meta : Meta) (isModule : bool)
    : M unit :=
  r <- (if isModule then
          let specifier :=
            JS.JSON_stringify ("/@npm/" +:+ specifier meta +:+ "?asset") in
          ret (Some "application/javascript;charset=utf-8",
               proxyModule specifier)
        else
          let type := getMimeType host (path meta) in
          emit (ELoadPackageFile meta);;;
          code <- call (loadPackageFile host meta);;
          ret (type, code));;
  let '(type, code) := r in
  emit (EWriteHead 200
          [("content-type", HStr (orTextPlain type));
           ("content-length", HNum (JS.byteLength code))]);;;
  emit (EEnd (Some code)).

(** *** The load hooks *)

Definition no_builtins_load (s : string) : Result (option string) :=
  if String.eqb s "fs" || String.eqb s "path"
  then Ok (Some "export default {};")
  else Ok None.

(** [id.replace(/^\0?\.\.?\/node_modules/, '/@npm')]. *)
Definition npmAssetSpec (id : string) : string :=
  let s :=
    match JS.stripPrefix (String (ascii_of_N 0) EmptyString) id with
    | Some rest => rest
    | None => id
    end in
  match JS.stripPrefix "." s with
  | Some r =>
      match JS.stripPrefix "./node_modules" r with
      | Some rest => "/@npm" +:+ rest
      | None =>
          match JS.stripPrefix "/node_modules" r with
          | Some rest => "/@npm" +:+ rest
          | None => id
          end
      end
  | None => id
  end.

(** The [load] hook of the [npm-asset] stage: inside the root the module
    is a default export of its servable path; otherwise the hook returns
    nothing and the next stage is asked. *)
Definition npm_asset_load (cwd : option string) (id : string)
    : Result (option string) :=
  match JS.path_join cwd id with
  | Throw e => Throw e
  | Ok file =>
      if JS.startsWith file (JS.String_ cwd) then
        Ok (Some ("export default " +:+ JS.dquote +:+ npmAssetSpec id
                  +:+ JS.dquote +:+ ";"))
      else Ok None
  end.

Definition never_disk_load (s : string) : Result (option string) :=
  Throw "local access not allowed".

Definition pluginLoad (host : Host) (p : Plugin) (id : string)
    : Result (option string) :=
  match p with
  | no_builtins => no_builtins_load id
  | npm_asset cwd => npm_asset_load cwd id
  | never_disk => never_disk_load id
  | _ => importedLoad host p id
  end.

(** The compiler asks the stages in order and takes the first result that
    is not empty; a hook that throws fails the load. *)
Fixpoint loadFirst (host : Host) (plugins : list Plugin) (id : string)
    : Result (option string) :=
  match plugins with
  | [] => Ok None
  | p :: ps =>
      match pluginLoad host p id with
      | Ok None => loadFirst host ps id
      | r => r
      end
  end.

(** The compiler rethrows the error of a load under a message that names
    the module: [Could not load <id>: <message>], with the importer after
    the id when the module has one. *)
Definition couldNotLoad (host : Host) (id e : string) : string :=
  "Could not load " +:+ id +:+ importedBy host id +:+ ": " +:+ e.

(** A module no stage supplies is read by the compiler itself. *)
Definition loadModule (host : Host) (plugins : list Plugin) (id : string)
    : Result string :=
  match loadFirst host plugins id with
  | Throw e => Throw (couldNotLoad host id e)
  | Ok (Some code) => Ok code
  | Ok None =>
      match readFile host id with
      | Ok code => Ok code
      | Throw e => Throw (couldNotLoad host id e)
      end
  end.

(** The modules of the graph are loaded one after the other; the first
    load that fails rejects the build. *)
Fixpoint loadModules (host : Host) (plugins : list Plugin)
    (ids : list string) : Result (list (string * string)) :=
  match ids with
  | [] => Ok []
  | i :: rest =>
      match loadModule host plugins i with
      | Throw e => Throw e
      | Ok code =>
          match loadModules host plugins rest with
          | Throw e => Throw e
          | Ok ms => Ok ((i, code) :: ms)
          end
      end
  end.

(** [rollup.rollup({ input, cache, plugins, ... })]. *)
Definition rollup (host : Host) (input : string)
    (cache : option RollupCache) (plugins : list Plugin)
    : Result RollupBuild :=
  match loadModules host plugins (moduleIds host input) with
  | Throw e => Throw e
  | Ok ms => link host input cache ms
  end.

(** *** [bundleNpmModule] *)

Definition pipeline (npmProviderPlugin : Plugin)
    (alias : option (gmap string string)) (cwd : option string)
    : list Plugin :=
  [ nodeBuiltinsPlugin;
    aliasPlugin alias;
    npmProviderPlugin;
    processGlobalPlugin;
    commonjs;
    json;
    no_builtins;
    wmrStylesPlugin alias cwd;
    urlPlugin cwd alias;
    defaultLoaders;
    npm_asset cwd;
    never_disk ].

Definition bundleNpmModule (host : Host) (mod_ : string) (source : string)
    (alias : option (gmap string string)) (cwd : option string)
    : M string :=
  npmProviderPlugin <-
    (if String.eqb source "unpkg" then throw "unpkg plugin is disabled"
     else ret (npmPlugin "/@npm"));;
  c <- getNpmCache;;
  emit (ERollup mod_);;;
  bundle <- call (rollup host mod_ c (pipeline npmProviderPlugin alias cwd));;
  setNpmCache (Some (cache bundle));;;
  emit EGenerate;;;
  output <- call (generate bundle);;
  match output with
  | first :: _ => ret (code first)
  | [] => throw "Cannot read properties of undefined (reading 'code')"
  end.

(** *** [npmMiddleware] *)

(** How the [try] block of the handler ends: it is done, or it returns the
    promise of [handleAsset] without awaiting it, so that a rejection of
    that promise is not caught by the [catch] of the block. *)
Inductive Tail :=
| TDone
| TAsset (meta : Meta) (isModule : bool).

Definition next (e : string) : M unit := emit (ENext e).

(** [{ source = 'npm' }]. *)
Definition sourceOrDefault (o : Options) : string :=
  match source o with
  | Some s => s
  | None => "npm"
  end.

(** [url.pathname.replace(/^\//, '')]: the module the request names. *)
Definition requestedModule (u : Url) : string :=
  stripLeadingSlash (pathname u).

(** The ETag of a resolved specifier. *)
Definition etagOf (meta : Meta) : string :=
  JS.base64 (specifier meta +:+ version meta).

(** [String(req.headers['if-none-match']).replace(/-(gz|br)$/g, '')]. *)
Definition ifNoneMatch (req : Request) : string :=
  stripCompressionSuffix (JS.String_ (headers req !! "if-none-match")).

(** The [try] block of the handler that answers the request. *)
Definition respond (host : Host) (o : Options) (req : Request) (u : Url)
    (mod_ : string) (meta : Meta) : M Tail :=
  let etag := etagOf meta in
  if String.eqb (ifNoneMatch req) etag then
    emit (EWriteHead 304 []);;; emit (EEnd None);;; ret TDone
  else
    emit (ESetHeader "etag" etag);;;
    if isAssetPath (path meta) then
      ret (TAsset meta (searchParams_has u "module"))
    else
      emit (ESetHeader "content-type"
              "application/javascript;charset=utf-8");;;
      cached <- getCachedBundle etag meta (cwd o);;
      match cached with
      | Some c => sendCachedBundle c;;; ret TDone
      | None =>
          code <- bundleNpmModule host mod_ (sourceOrDefault o) (alias o)
                    (cwd o);;
          emit (EWriteHead 200
                  [("content-length", HNum (JS.byteLength code))]);;;
          emit (EEnd (Some code));;;
          setCachedBundle etag code meta (cwd o);;;
          (if bool_decide (optimize o = Some false) then ret tt
           else enqueueCompress etag);;;
          ret TDone
      end.

(** The handler [npmMiddleware(options)] returns. Its completion is the
    completion of the promise of the [async] handler. *)
Definition npmMiddleware (host : Host) (o : Options) (req : Request)
    : M unit :=
  u <- call (parseURL host (url req));;
  let mod_ := requestedModule u in
  meta <- call (normalizeSpecifier host mod_);;
  emit (EResolvePackageVersion meta);;;
  r <- tryCatch (m <- call (resolvePackageVersion host meta);; ret (Some m))
                (fun e => next e;;; ret None);;
  match r with
  | None => ret tt
  | Some meta =>
      t <- tryCatch (respond host o req u mod_ meta)
                    (fun e => next e;;; ret TDone);;
      match t with
      | TDone => ret tt
      | TAsset meta isModule => handleAsset host meta isModule
      end
  end.

(** *** States and conditions the properties speak of *)

(** The state in which the build phase of the compiler has completed. *)
Definition built (w : World) (mod_ : string) (b : RollupBuild) : World :=
  {| npmCache := Some (cache b); bundles := bundles w;
     log := log w ++ [ERollup mod_; EGenerate] |}.

(** The state in which a fresh bundle has been sent and stored. *)
Definition served (o : Options) (w : World) (etag code : string) : World :=
  {| npmCache := npmCache w;
     bundles := <[etag := code]> (bundles w);
     log := log w
            ++ [ EWriteHead 200
                   [("content-length", HNum (JS.byteLength code))];
                 EEnd (Some code);
                 ESetCachedBundle etag code ]
            ++ (if bool_decide (optimize o = Some false) then []
                else [EEnqueueCompress etag]) |}.

(** The imported stages of the pipeline leave the module [id] to the stages
    after them. *)
Definition importedPass (host : Host) (id : string) : Prop :=
  forall p : Plugin,
    p <> no_builtins -> (forall c, p <> npm_asset c) -> p <> never_disk ->
    importedLoad host p id = Ok None.

End NpmMiddleware.

(** ** The permitted root, in the words of the specification *)
Module Spec.

(** The names on the way to a path: its segments that are not empty. *)
Definition names (p : string) : list string :=
  List.filter (fun s => negb (String.eqb s EmptyString)) (JS.splitSlash p).

(** A path lies inside the root when the names on the way to it begin with
    the names on the way to the root. *)
Definition withinRoot (root file : string) : bool :=
  bool_decide (names root `prefix_of` names file).

End Spec.

(** ** The bundle pipeline of npm-plugin-2 *)
Module NpmBundle.

(** The stages [npmBundle] can put in its pipeline. *)
Inductive Plugin :=
| virtual_entry (requestId : string)
| browserFieldPlugin
| npmExternalDeps (requestId : string)
| npmLocalPackage (root : string)
| npmAutoInstall (root : string)
| npmLoad
| commonjsPlugin
| subPackageLegacy (rootId : string).

(** The hooks of the inline [virtual-entry] stage. *)
Definition virtual_entry_resolveId (id : string) : option string :=
  if String.eqb id "virtual-entry" then Some id else None.

Definition virtual_entry_load (requestId id : string) : option string :=
  let nl := String (ascii_of_N 10) EmptyString in
  if String.eqb id "virtual-entry" then
    Some ("const _foo = import('" +:+ requestId +:+ "');" +:+ nl
          +:+ "export default _foo;" +:+ nl)
  else None.

(** [process.env.DISABLE_LOCAL_NPM]: a variable of the environment is a
    string, or [undefined] when it is not set. *)
Definition DISABLE_LOCAL_NPM (env : gmap string string) : option string :=
  env !! "DISABLE_LOCAL_NPM".

(** The array literal given as [plugins]: an entry [c && p] is the plugin
    when [c] is truthy and a falsy value ([None]) otherwise. *)
Definition plugins (env : gmap string string) (root requestId : string)
    (autoInstall : bool) : list (option Plugin) :=
  [ Some (virtual_entry requestId);
    Some browserFieldPlugin;
    Some (npmExternalDeps requestId);
    (if negb (JS.truthy (DISABLE_LOCAL_NPM env))
     then Some (npmLocalPackage root) else None);
    (if autoInstall then Some (npmAutoInstall root) else None);
    Some npmLoad;
    Some commonjsPlugin;
    Some (subPackageLegacy requestId) ].

(** The compiler drops the falsy entries of [plugins]. *)
Definition stages (env : gmap string string) (root requestId : string)
    (autoInstall : bool) : list Plugin :=
  omap (fun p => p) (plugins env root requestId autoInstall).

(** The collaborators: [getPackageInfo] of utils.js, and the compiler,
    which builds from an entry and a pipeline and then generates the chunks
    under a pattern for their file names. *)
Record Host := {
  getPackageInfo : string -> Result string;
  rollup : string -> list Plugin ->
           Result (string -> Result (list (string * string)))
}.

Definition npmBundle (host : Host) (env : gmap string string)
    (root requestId : string) (autoInstall : bool)
    : Result (list (string * string)) :=
  match getPackageInfo host requestId with
  | Throw e => Throw e
  | Ok pkgName =>
      match rollup host "virtual-entry"
              (stages env root requestId autoInstall) with
      | Throw e => Throw e
      | Ok generate => generate (pkgName +:+ "-[hash]")
      end
  end.

End NpmBundle.

(** ** Sample collaborators and requests

    A small registry with which the handlers can be run: it knows the
    packages [left-pad] and [some-pkg], resolves every known package to
    version 1.0.0 and rejects the empty specifier. *)
Module Samples.
Import NpmMiddleware.

(** The part of [s] before the first [c], and the part after it. *)
Fixpoint splitAt (c : ascii) (s : string) : string * option string :=
  match s with
  | EmptyString => (EmptyString, None)
  | String d rest =>
      if Ascii.eqb c d then (EmptyString, Some rest)
      else let '(a, b) := splitAt c rest in (String d a, b)
  end.

Definition parseURL (s : string) : Result Url :=
  let '(p, q) := splitAt "?" s in
  Ok {| pathname := p;
        searchParams := match q with
                        | Some k => [(k, EmptyString)]
                        | None => []
                        end |}.

Definition normalizeSpecifier (s : string) : Result Meta :=
  if String.eqb s EmptyString then Throw "Invalid specifier: "
  else
    let '(m, p) := splitAt "/" s in
    Ok {| module_ := m; version := EmptyString;
          path := match p with
                  | Some p => p
                  | None => EmptyString
                  end;
          specifier := s |}.

Definition resolvePackageVersion (m : Meta) : Result Meta :=
  if String.eqb (module_ m) "left-pad" || String.eqb (module_ m) "some-pkg"
  then Ok {| module_ := module_ m; version := "1.0.0"; path := path m;
             specifier := specifier m |}
  else Throw "package not found".

Definition getMimeType (p : string) : option string :=
  if JS.endsWith p ".css" then Some "text/css" else None.

Definition loadPackageFile (m : Meta) : Result string :=
  Ok "body{color:red}".

(** Of the imported stages only the registry stage loads modules: those of
    the package [left-pad]. *)
Definition importedLoad (p : Plugin) (id : string)
    : Result (option string) :=
  match p with
  | npmPlugin _ =>
      if JS.startsWith id "left-pad"
      then Ok (Some "export default function leftPad(){}")
      else Ok None
  | _ => Ok None
  end.

(** The graph of an entry: the entry, and for [some-pkg] a module next to
    the root. *)
Definition moduleIds (input : string) : list string :=
  if JS.startsWith input "some-pkg" then [ "../app-secret/x" ]
  else [ input ].

(** A compiler that emits the loaded modules as a first chunk, followed by
    a second chunk, and whose generation step completes as [gen] says. *)
Definition link (gen : list OutputChunk -> Result (list OutputChunk))
    (input : string) (c : option RollupCache) (ms : list (string * string))
    : Result RollupBuild :=
  Ok {| cache := ms;
        generate :=
          gen [ {| fileName := "index.js";
                   code := String.concat EmptyString (map snd ms) |};
                {| fileName := "chunk-1.js"; code := "export {};" |} ] |}.

Definition hostWith (gen : list OutputChunk -> Result (list OutputChunk))
    : Host :=
  {| NpmMiddleware.parseURL := parseURL;
     NpmMiddleware.normalizeSpecifier := normalizeSpecifier;
     NpmMiddleware.resolvePackageVersion := resolvePackageVersion;
     NpmMiddleware.getMimeType := getMimeType;
     NpmMiddleware.loadPackageFile := loadPackageFile;
     NpmMiddleware.importedLoad := importedLoad;
     NpmMiddleware.moduleIds := moduleIds;
     NpmMiddleware.readFile := fun _ => Throw "ENOENT";
     NpmMiddleware.importedBy := fun _ => EmptyString;
     NpmMiddleware.link := link gen |}.

(** The registry with a compiler that works, and with one whose generation
    step fails. *)
Definition host : Host := hostWith Ok.
Definition hostGenerateFails : Host :=
  hostWith (fun _ => Throw "generate failed").

Definition options (src : option string) : Options :=
  {| source := src; alias := None; optimize := None; cwd := Some "/app" |}.

Definition get (u : string) (ifNoneMatch : option string) : Request :=
  {| url := u;
     headers := match ifNoneMatch with
                | Some v => {[ "if-none-match" := v ]}
                | None => ∅
                end |}.

(** The metadata of the sample requests, with the version [v]. *)
Definition leftPad (v : string) : Meta :=
  {| module_ := "left-pad"; version := v;
     path := "index.js"; specifier := "left-pad/index.js" |}.

Definition theme (v : string) : Meta :=
  {| module_ := "some-pkg"; version := v;
     path := "theme.css"; specifier := "some-pkg/theme.css" |}.

Definition start : World :=
  {| npmCache := None; bundles := ∅; log := [] |}.

(** What is kept of a run for inspection: the completion, [npmCache], the
    stored bundles as a list, and the effects. *)
Definition observe {A} (r : Result A * World) :=
  (fst r, npmCache (snd r), map_to_list (bundles (snd r)), log (snd r)).

End Samples.

(** ** The [transform] hook of the [npm-asset] stage *)
Module NpmAssetTransform.

(** The collaborators of the hook: [hasCustomPrefix] of fs-utils.js, the
    test of the pattern [IMPLICIT_URL] of url-plugin.js, and
    [transformImports] of transform-imports.js, which rewrites the import
    specifiers of a module with the [resolveId] it is given. *)
Record Host := {
  hasCustomPrefix : string -> bool;
  IMPLICIT_URL_test : string -> bool;
  transformImports :
    string -> string -> (string -> option string) -> Result string
}.

(** [/\.([tj]sx?|mjs)$/.test(id)]. *)
Definition isScriptId (id : string) : bool :=
  existsb (JS.endsWith id) [".ts"; ".tsx"; ".js"; ".jsx"; ".mjs"].

(** [/\.([sa]?css|less)$/.test(id)]. *)
Definition isStyleId (id : string) : bool :=
  existsb (JS.endsWith id) [".css"; ".scss"; ".acss"; ".less"].

(** The [resolveId] the hook gives to [transformImports]: [null] leaves
    the specifier as it is. *)
Definition resolveId (host : Host) (id specifier : string) : option string :=
  if negb (hasCustomPrefix host specifier)
     && (IMPLICIT_URL_test host specifier || negb (isStyleId id))
  then Some ("url:" +:+ specifier)
  else None.

(** [transform(code, id)]: a module that is not a script is left alone. *)
Definition transform (host : Host) (code id : string)
    : Result (option string) :=
  if negb (isScriptId id) then Ok None
  else
    match transformImports host code id (resolveId host id) with
    | Ok c => Ok (Some c)
    | Throw e => Throw e
    end.

(** The last two characters of a string. *)
Fixpoint lastTwo (s : string) : option (ascii * ascii) :=
  match s with
  | EmptyString => None
  | String a EmptyString => None
  | String a (String b EmptyString) => Some (a, b)
  | String _ rest => lastTwo rest
  end.

End NpmAssetTransform.

(** ** What is observed of a request *)
Module Observations.
Import NpmMiddleware.

(** The effects that were added to the log between two states. *)
Definition effects (w w' : World) : list Event :=
  drop (length (log w)) (log w').

(** The three ways in which the handler answers a request: it writes the
    head of a response, it has the Cache Manager send a stored bundle, or it
    calls [next]. *)
Definition isAnswer (e : Event) : bool :=
  match e with
  | EWriteHead _ _ | ESendCachedBundle _ | ENext _ => true
  | _ => false
  end.

(** The calls of the Cache Manager and of the compiler. *)
Definition isCacheOrCompiler (e : Event) : bool :=
  match e with
  | EGetCachedBundle _ | ESendCachedBundle _ | ESetCachedBundle _ _
  | EEnqueueCompress _ | ERollup _ | EGenerate => true
  | _ => false
  end.

Definition isEnqueueCompress (e : Event) : bool :=
  match e with
  | EEnqueueCompress _ => true
  | _ => false
  end.

Definition isNotModified (e : Event) : bool :=
  match e with
  | EWriteHead 304 _ => true
  | _ => false
  end.

(** The same collaborators with another reader for the compiler. *)
Definition withReadFile (host : Host) (fs : string -> Result string) : Host :=
  {| parseURL := parseURL host;
     normalizeSpecifier := normalizeSpecifier host;
     resolvePackageVersion := resolvePackageVersion host;
     getMimeType := getMimeType host;
     loadPackageFile := loadPackageFile host;
     importedLoad := importedLoad host;
     moduleIds := moduleIds host;
     readFile := fs;
     importedBy := importedBy host;
     link := link host |}.

(** A segment that climbs to the parent directory. *)
Definition climbs (id : string) : bool :=
  existsb (String.eqb "..") (JS.splitSlash id).

End Observations.

(** ** The mime table, in the words of the specification *)
Module MimeSpec.
Import NpmMiddleware.

(** The content types of stylesheets: [text/css], which the specification
    names, and the media types of the three other stylesheet extensions of
    the handler. *)
Definition stylesheetTypes : list string :=
  ["text/css"; "text/x-scss"; "text/x-sass"; "text/less"].

Definition isStylesheetType (t : string) : bool :=
  existsb (String.eqb t) stylesheetTypes.

(** Modelled from the spec: [getMimeType] of mimetypes.js, which is not
    among the sources. The specification says of it that the content type of
    an asset is derived from its extension, and that a stylesheet subpath is
    served with a stylesheet content type ([text/css] for [theme.css]). A
    table is as specified when it gives every subpath with a stylesheet
    extension a stylesheet content type. *)
Definition stylesheetTable (host : Host) : Prop :=
  forall p : string,
    isStylesheetPath p = true ->
    exists t, getMimeType host p = Some t /\ isStylesheetType t = true.

End MimeSpec.

(** ** More sample collaborators *)
Module MoreSamples.
Import NpmMiddleware.

(** A mime table with the four stylesheet extensions. *)
Definition styleTable (p : string) : option string :=
  if JS.endsWith p ".css" then Some "text/css"
  else if JS.endsWith p ".scss" then Some "text/x-scss"
  else if JS.endsWith p ".sass" then Some "text/x-sass"
  else if JS.endsWith p ".less" then Some "text/less"
  else None.

(** The sample registry with this table. *)
Definition hostStyles : Host :=
  {| parseURL := Samples.parseURL;
     normalizeSpecifier := Samples.normalizeSpecifier;
     resolvePackageVersion := Samples.resolvePackageVersion;
     getMimeType := styleTable;
     loadPackageFile := Samples.loadPackageFile;
     importedLoad := Samples.importedLoad;
     moduleIds := Samples.moduleIds;
     readFile := fun _ => Throw "ENOENT";
     importedBy := fun _ => EmptyString;
     link := Samples.link Ok |}.

(** The metadata of a request for a Sass stylesheet, with the version [v],
    and the parsed URL of the request. *)
Definition themeScss (v : string) : Meta :=
  {| module_ := "some-pkg"; version := v;
     path := "theme.scss"; specifier := "some-pkg/theme.scss" |}.

Definition themeScssUrl : Url :=
  {| pathname := "/some-pkg/theme.scss"; searchParams := [] |}.

(** The sample registry when the file of a package cannot be loaded. *)
Definition hostNoFile : Host :=
  {| parseURL := Samples.parseURL;
     normalizeSpecifier := Samples.normalizeSpecifier;
     resolvePackageVersion := Samples.resolvePackageVersion;
     getMimeType := Samples.getMimeType;
     loadPackageFile := fun _ => Throw "ENOENT";
     importedLoad := Samples.importedLoad;
     moduleIds := Samples.moduleIds;
     readFile := fun _ => Throw "ENOENT";
     importedBy := fun _ => EmptyString;
     link := Samples.link Ok |}.

(** The parsed URLs of the sample requests. *)
Definition leftPadUrl : Url :=
  {| pathname := "/left-pad/index.js"; searchParams := [] |}.

Definition themeUrl : Url :=
  {| pathname := "/some-pkg/theme.css"; searchParams := [] |}.

(** A state in which the Cache Manager holds a bundle of [left-pad] and a
    bundle under another key. *)
Definition stored : World :=
  {| npmCache := None;
     bundles := {[ "bGVmdC1wYWQvaW5kZXguanMxLjAuMA==" := "/* cached */";
                   "b3RoZXI=" := "/* other */" ]};
     log := [] |}.

(** Collaborators for the [transform] hook: the custom prefixes end with a
    colon, no specifier is an implicit URL, and the imports are rewritten by
    applying [resolveId] to the whole code. *)
Definition transformHost : NpmAssetTransform.Host :=
  {| NpmAssetTransform.hasCustomPrefix := fun s => JS.hasChar ":" s;
     NpmAssetTransform.IMPLICIT_URL_test := fun _ => false;
     NpmAssetTransform.transformImports :=
       fun code _ resolveId =>
         match resolveId code with
         | Some r => Ok r
         | None => Ok code
         end |}.

End MoreSamples.

(** * Properties *)

(** ** The runtime functions on concrete inputs *)
Section RuntimeExamples.
Import JS NpmMiddleware.

Example base64_left_pad :
  base64 "left-pad/index.js1.0.0" = "bGVmdC1wYWQvaW5kZXguanMxLjAuMA==".
Proof. reflexivity. Qed.

Example base64_padding :
  (base64 "a", base64 "ab", base64 "abc") = ("YQ==", "YWI=", "YWJj").
Proof. reflexivity. Qed.

Example path_join_above_root :
  path_join (Some "/app") "../../etc/passwd" = Ok "/etc/passwd".
Proof. reflexivity. Qed.

Example path_join_inside_root :
  path_join (Some "/app") "./node_modules/foo//a.css"
  = Ok "/app/node_modules/foo/a.css".
Proof. reflexivity. Qed.

Example path_join_relative :
  (path_join (Some "app/") "../../x/", path_join (Some EmptyString) EmptyString)
  = (Ok "../x/", Ok ".").
Proof. reflexivity. Qed.

Example stripCompressionSuffix_once :
  (stripCompressionSuffix "abc-gz", stripCompressionSuffix "abc-gz-br",
   stripCompressionSuffix "abc-gzip", stripCompressionSuffix "undefined")
  = ("abc", "abc-gz", "abc-gzip", "undefined").
Proof. reflexivity. Qed.

Example isAssetPath_extensions :
  map isAssetPath ["a/theme.css"; "a.scss"; "a.sass"; "a.less"; "m.wasm";
                   "x.json"; "index.js"; "css"; "a.css.js"]
  = [true; true; true; true; true; true; false; false; false].
Proof. reflexivity. Qed.

Example npmAssetSpec_node_modules :
  (npmAssetSpec "./node_modules/foo/a.css",
   npmAssetSpec "../node_modules/foo/a.css",
   npmAssetSpec "node_modules/foo/a.css")
  = ("/@npm/foo/a.css", "/@npm/foo/a.css", "node_modules/foo/a.css").
Proof. reflexivity. Qed.

Example JSON_stringify_escapes :
  JSON_stringify ("a" +:+ dquote +:+ "b\c")
  = dquote +:+ "a\" +:+ dquote +:+ "b\\c" +:+ dquote.
Proof. reflexivity. Qed.

End RuntimeExamples.

(** ** The base64 encoding is injective *)
Section Base64.
Import JS.

Lemma b64char_index (s : sextet) :
  sextet_of_N (indexIn (b64char s) alphabet) = s.
Proof.
  destruct s as [[[[[b5 b4] b3] b2] b1] b0].
  destruct b5, b4, b3, b2, b1, b0; vm_compute; reflexivity.
Qed.

Lemma b64char_inj (s t : sextet) : b64char s = b64char t -> s = t.
Proof.
  intros H.
  rewrite <- (b64char_index s), <- (b64char_index t), H.
  reflexivity.
Qed.

Lemma b64char_not_pad (s : sextet) : b64char s <> pad.
Proof.
  destruct s as [[[[[b5 b4] b3] b2] b1] b0].
  destruct b5, b4, b3, b2, b1, b0; vm_compute; discriminate.
Qed.

(** Every group of the encoding starts with two characters of the
    alphabet, so the encoding of a non-empty string is not empty. *)
Ltac sextets :=
  repeat match goal with
         | H : b64char _ = pad |- _ => exfalso; exact (b64char_not_pad _ H)
         | H : pad = b64char _ |- _ =>
             exfalso; exact (b64char_not_pad _ (eq_sym H))
         | H : b64char _ = b64char _ |- _ =>
             apply b64char_inj in H; injection H; clear H; intros; subst
         end.

Lemma base64_inj (s t : string) : base64 s = base64 t -> s = t.
Proof.
  remember (String.length s) as n eqn:Hn.
  revert s t Hn.
  induction n as [n IH] using lt_wf_ind.
  intros s t Hn H.
  destruct s as [|[a0 a1 a2 a3 a4 a5 a6 a7] [|[b0 b1 b2 b3 b4 b5 b6 b7]
                   [|[c0 c1 c2 c3 c4 c5 c6 c7] s']]];
    destruct t as [|[x0 x1 x2 x3 x4 x5 x6 x7] [|[y0 y1 y2 y3 y4 y5 y6 y7]
                     [|[z0 z1 z2 z3 z4 z5 z6 z7] t']]];
    cbn [base64] in H; try discriminate H; try reflexivity;
    injection H; clear H; intros; sextets; try reflexivity.
  f_equal. f_equal. f_equal.
  eapply (IH (String.length s')); [| reflexivity | assumption].
  subst. cbn [String.length]. lia.
Qed.

End Base64.

(** ** Suffixes, and the decorations of an ETag *)
Section Suffixes.
Import JS NpmMiddleware.

Lemma length_append (a b : string) :
  String.length (a +:+ b) = String.length a + String.length b.
Proof.
  induction a as [| c a IH]; [reflexivity |].
  change (S (String.length (a +:+ b))
          = S (String.length a + String.length b)).
  by rewrite IH.
Qed.

(** A string that is longer than [p] is not [p]. *)
Lemma eqb_longer (c : ascii) (e p q : string) :
  String.length p = String.length q ->
  String.eqb (String c (e +:+ p)) q = false.
Proof.
  intros Hlen. apply String.eqb_neq. intros H.
  apply (f_equal String.length) in H.
  cbn [String.length] in H. rewrite length_append in H. lia.
Qed.

Lemma stripSuffix_refl (p : string) : stripSuffix p p = Some EmptyString.
Proof. destruct p; cbn [stripSuffix]; by rewrite String.eqb_refl. Qed.

(** The suffix that was appended is the one that is removed. *)
Lemma stripSuffix_app (p e : string) : stripSuffix p (e +:+ p) = Some e.
Proof.
  induction e as [| c e IH]; [apply stripSuffix_refl |].
  change (String c e +:+ p) with (String c (e +:+ p)).
  cbn [stripSuffix]. by rewrite eqb_longer, IH.
Qed.

(** A string that ends with one suffix does not end with another suffix of
    the same length. *)
Lemma stripSuffix_other (p q e : string) :
  String.length p = String.length q -> p <> q ->
  stripSuffix q (e +:+ p) = None.
Proof.
  intros Hlen Hne.
  induction e as [| c e IH].
  - change (EmptyString +:+ p) with p.
    assert (Hshort : forall s t, String.length s < String.length t ->
                                 stripSuffix t s = None).
    { induction s as [| d s IHs]; intros t Ht.
      - destruct t; [cbn in Ht; lia | reflexivity].
      - cbn [stripSuffix].
        replace (String.eqb (String d s) t) with false.
        + rewrite IHs; [reflexivity | cbn [String.length] in Ht; lia].
        + symmetry. apply String.eqb_neq. intros <-. lia. }
    destruct p as [| d p].
    + destruct q; [done | discriminate Hlen].
    + cbn [stripSuffix].
      replace (String.eqb (String d p) q) with false
        by (symmetry; by apply String.eqb_neq).
      rewrite Hshort; [reflexivity |].
      rewrite <- Hlen. cbn [String.length]. lia.
  - change (String c e +:+ p) with (String c (e +:+ p)).
    cbn [stripSuffix]. by rewrite eqb_longer, IH.
Qed.

(** What is removed was there. *)
Lemma stripSuffix_Some (p s r : string) :
  stripSuffix p s = Some r -> s = r +:+ p.
Proof.
  revert r. induction s as [| c s IH]; intros r.
  - cbn [stripSuffix].
    destruct (String.eqb EmptyString p) eqn:Hp; [| discriminate].
    apply String.eqb_eq in Hp as <-. by intros [= <-].
  - cbn [stripSuffix].
    destruct (String.eqb (String c s) p) eqn:Hp.
    + apply String.eqb_eq in Hp as <-. by intros [= <-].
    + destruct (stripSuffix p s) as [r' |]; [| discriminate].
      intros [= <-]. by rewrite (IH r' eq_refl).
Qed.

Lemma hasChar_app (c : ascii) (a b : string) :
  hasChar c (a +:+ b) = hasChar c a || hasChar c b.
Proof.
  induction a as [| d a IH]; [reflexivity |].
  change (String d a +:+ b) with (String d (a +:+ b)).
  cbn [hasChar]. rewrite IH. by destruct (Ascii.eqb c d).
Qed.

Lemma b64char_not_dash (s : sextet) : Ascii.eqb "-" (b64char s) = false.
Proof.
  destruct s as [[[[[b5 b4] b3] b2] b1] b0].
  destruct b5, b4, b3, b2, b1, b0; reflexivity.
Qed.

(** The base64 alphabet has no dash. *)
Lemma base64_no_dash (s : string) : hasChar "-" (base64 s) = false.
Proof.
  remember (String.length s) as n eqn:Hn.
  revert s Hn.
  induction n as [n IH] using lt_wf_ind.
  intros s Hn.
  destruct s as [|[a0 a1 a2 a3 a4 a5 a6 a7] [|[b0 b1 b2 b3 b4 b5 b6 b7]
                   [|[c0 c1 c2 c3 c4 c5 c6 c7] s']]];
    cbn [base64 hasChar]; rewrite ?b64char_not_dash; try reflexivity.
  cbn [orb]. eapply (IH (String.length s')); [| reflexivity].
  subst n. cbn [String.length]. lia.
Qed.

Lemma stripSuffix_base64 (p x : string) :
  hasChar "-" p = true -> stripSuffix p (base64 x) = None.
Proof.
  intros Hp.
  destruct (stripSuffix p (base64 x)) as [r |] eqn:Hs; [| reflexivity].
  apply stripSuffix_Some in Hs.
  pose proof (base64_no_dash x) as Hd.
  rewrite Hs, hasChar_app, Hp, orb_true_r in Hd. discriminate Hd.
Qed.

(** The validator a client sends back is the ETag, as it is or decorated
    with the suffix of a compressed variant: in each case the handler
    compares the ETag itself. *)
Lemma ifNoneMatch_decorated (req : Request) (meta : Meta) (d : string) :
  d = EmptyString \/ d = "-gz" \/ d = "-br" ->
  headers req !! "if-none-match" = Some (etagOf meta +:+ d) ->
  ifNoneMatch req = etagOf meta.
Proof.
  intros Hd Hh. unfold ifNoneMatch, stripCompressionSuffix.
  rewrite Hh. cbn [String_].
  destruct Hd as [-> | [-> | ->]].
  - replace (etagOf meta +:+ EmptyString) with (etagOf meta).
    + unfold etagOf. by rewrite !stripSuffix_base64.
    + clear. induction (etagOf meta) as [| c s IH]; [reflexivity |].
      change (String c s = String c (s +:+ EmptyString)). by rewrite <- IH.
  - by rewrite stripSuffix_app.
  - rewrite stripSuffix_other by done. by rewrite stripSuffix_app.
Qed.

End Suffixes.

(** ** How the handlers run *)
Section Runs.
Import NpmMiddleware.

Variable host : Host.

Lemma logged_logged (w : World) (a b : list Event) :
  logged (logged w a) b = logged w (a ++ b).
Proof. unfold logged; cbn. by rewrite <- app_assoc. Qed.

(** [bundleNpmModule], one case per way it ends. *)
Lemma bundleNpmModule_run (mod_ source : string)
    (alias : option (gmap string string)) (cwd : option string) (w : World) :
  bundleNpmModule host mod_ source alias cwd w =
    if String.eqb source "unpkg" then (Throw "unpkg plugin is disabled", w)
    else
      match rollup host mod_ (npmCache w)
              (pipeline (npmPlugin "/@npm") alias cwd) with
      | Throw e => (Throw e, logged w [ERollup mod_])
      | Ok b =>
          match generate b with
          | Throw e => (Throw e, built w mod_ b)
          | Ok [] =>
              (Throw "Cannot read properties of undefined (reading 'code')",
               built w mod_ b)
          | Ok (first :: _) => (Ok (code first), built w mod_ b)
          end
      end.
Proof.
  unfold bundleNpmModule, bind, getNpmCache, setNpmCache, emit, call, throw,
    ret, built, logged.
  destruct (String.eqb source "unpkg"); [reflexivity |].
  cbn [npmCache bundles log].
  destruct (rollup host mod_ (npmCache w) _) as [b | e]; [| reflexivity].
  cbn [npmCache bundles log]. rewrite <- app_assoc. cbn [app].
  destruct (generate b) as [[| first rest] | e]; reflexivity.
Qed.

(** The completion of a build and the cache it leaves do not depend on the
    bundles stored or on the effects so far. *)
Lemma bundleNpmModule_frame (mod_ source : string)
    (alias : option (gmap string string)) (cwd : option string)
    (w w' : World) :
  npmCache w' = npmCache w ->
  fst (bundleNpmModule host mod_ source alias cwd w')
    = fst (bundleNpmModule host mod_ source alias cwd w).
Proof.
  intros Hc. rewrite !bundleNpmModule_run, Hc.
  destruct (String.eqb source "unpkg"); [reflexivity |].
  destruct (rollup host mod_ (npmCache w) _) as [b | e]; [| reflexivity].
  destruct (generate b) as [[| first rest] | e]; reflexivity.
Qed.

(** A build stores no bundle: it only replaces [npmCache] and adds
    effects of the compiler. *)
Lemma bundleNpmModule_bundles (mod_ source : string)
    (alias : option (gmap string string)) (cwd : option string) (w : World) :
  exists es,
    bundles (snd (bundleNpmModule host mod_ source alias cwd w)) = bundles w
    /\ log (snd (bundleNpmModule host mod_ source alias cwd w))
         = (log w ++ es)%list
    /\ Forall (fun e => e = ERollup mod_ \/ e = EGenerate) es.
Proof.
  rewrite bundleNpmModule_run.
  destruct (String.eqb source "unpkg").
  { exists []. cbn. rewrite app_nil_r. auto. }
  destruct (rollup host mod_ (npmCache w) _) as [b | e].
  - exists [ERollup mod_; EGenerate].
    destruct (generate b) as [[| first rest] | e]; cbn;
      (split; [| split]); auto.
  - exists [ERollup mod_]. cbn. (split; [| split]); auto.
Qed.

(** [handleAsset], one case per way it ends. *)
Lemma handleAsset_run (meta : Meta) (isModule : bool) (w : World) :
  handleAsset host meta isModule w =
    if isModule then
      let body :=
        proxyModule
          (JS.JSON_stringify ("/@npm/" +:+ specifier meta +:+ "?asset")) in
      (Ok tt,
       logged w [ EWriteHead 200
                    [("content-type",
                      HStr "application/javascript;charset=utf-8");
                     ("content-length", HNum (JS.byteLength body))];
                  EEnd (Some body) ])
    else
      match loadPackageFile host meta with
      | Ok bytes =>
          (Ok tt,
           logged w [ ELoadPackageFile meta;
                      EWriteHead 200
                        [("content-type",
                          HStr (orTextPlain (getMimeType host (path meta))));
                         ("content-length", HNum (JS.byteLength bytes))];
                      EEnd (Some bytes) ])
      | Throw e => (Throw e, logged w [ELoadPackageFile meta])
      end.
Proof.
  unfold handleAsset. destruct isModule.
  - unfold bind, ret, emit. cbv beta iota zeta. by rewrite logged_logged.
  - unfold bind, ret, emit, call. cbv beta iota zeta.
    destruct (loadPackageFile host meta) as [bytes | e]; [| reflexivity].
    cbv beta iota zeta. by rewrite !logged_logged.
Qed.

(** The handler, one case per way through it: a URL that does not parse
    and a specifier that is refused reject the promise of the handler; a
    version that is not resolved goes to [next]; otherwise the [try] block
    that answers runs, its exceptions go to [next], and the promise of
    [handleAsset] is returned as it is. *)
Lemma npmMiddleware_run (o : Options) (req : Request) (w : World) :
  npmMiddleware host o req w =
    match parseURL host (url req) with
    | Throw e => (Throw e, w)
    | Ok u =>
        match normalizeSpecifier host (requestedModule u) with
        | Throw e => (Throw e, w)
        | Ok meta =>
            match resolvePackageVersion host meta with
            | Throw e => (Ok tt, logged w [EResolvePackageVersion meta; ENext e])
            | Ok meta' =>
                match respond host o req u (requestedModule u) meta'
                        (logged w [EResolvePackageVersion meta]) with
                | (Ok TDone, w') => (Ok tt, w')
                | (Ok (TAsset m isModule), w') => handleAsset host m isModule w'
                | (Throw e, w') => (Ok tt, logged w' [ENext e])
                end
            end
        end
    end.
Proof.
  unfold npmMiddleware, next, bind, call, tryCatch, emit, ret.
  destruct (parseURL host (url req)) as [u | e]; [| reflexivity].
  destruct (normalizeSpecifier host (requestedModule u)) as [meta | e];
    [| reflexivity].
  destruct (resolvePackageVersion host meta) as [meta' | e].
  - destruct (respond host o req u (requestedModule u) meta' _)
      as [[[| m isModule] | e] w']; reflexivity.
  - by rewrite logged_logged.
Qed.

Lemma npmMiddleware_resolved (o : Options) (req : Request) (w : World)
    (u : Url) (meta meta' : Meta) :
  parseURL host (url req) = Ok u ->
  normalizeSpecifier host (requestedModule u) = Ok meta ->
  resolvePackageVersion host meta = Ok meta' ->
  npmMiddleware host o req w =
    match respond host o req u (requestedModule u) meta'
            (logged w [EResolvePackageVersion meta]) with
    | (Ok TDone, w') => (Ok tt, w')
    | (Ok (TAsset m isModule), w') => handleAsset host m isModule w'
    | (Throw e, w') => (Ok tt, logged w' [ENext e])
    end.
Proof.
  intros Hu Hn Hr. by rewrite npmMiddleware_run, Hu, Hn, Hr.
Qed.

(** The [try] block that answers, one case per way through it. *)
Lemma respond_run (o : Options) (req : Request) (u : Url) (mod_ : string)
    (meta : Meta) (w : World) :
  respond host o req u mod_ meta w =
    let etag := etagOf meta in
    if String.eqb (ifNoneMatch req) etag then
      (Ok TDone, logged w [EWriteHead 304 []; EEnd None])
    else if isAssetPath (path meta) then
      (Ok (TAsset meta (searchParams_has u "module")),
       logged w [ESetHeader "etag" etag])
    else
      let w1 :=
        logged w [ ESetHeader "etag" etag;
                   ESetHeader "content-type"
                     "application/javascript;charset=utf-8";
                   EGetCachedBundle etag ] in
      match bundles w !! etag with
      | Some c => (Ok TDone, logged w1 [ESendCachedBundle c])
      | None =>
          match bundleNpmModule host mod_ (sourceOrDefault o) (alias o)
                  (cwd o) w1 with
          | (Ok code, w2) => (Ok TDone, served o w2 etag code)
          | (Throw e, w2) => (Throw e, w2)
          end
      end.
Proof.
  unfold respond. cbv zeta.
  destruct (String.eqb (ifNoneMatch req) (etagOf meta)).
  { unfold bind, emit, ret. by rewrite logged_logged. }
  destruct (isAssetPath (path meta)).
  { reflexivity. }
  unfold bind at 1 2. unfold emit at 1 2. rewrite logged_logged.
  unfold bind at 1. unfold getCachedBundle, bind, emit at 1.
  rewrite logged_logged. cbn [app bundles logged].
  destruct (bundles w !! etagOf meta) as [c |].
  { unfold sendCachedBundle, emit, ret. reflexivity. }
  match goal with
  | |- context [bundleNpmModule ?h ?m ?s ?a ?c ?w1] =>
      destruct (bundleNpmModule h m s a c w1) as [[code | e] w2]
  end; [| reflexivity].
  unfold emit, setCachedBundle, enqueueCompress, bind, emit, ret, served,
    logged.
  cbn [npmCache bundles log].
  destruct (bool_decide (optimize o = Some false));
    cbn [npmCache bundles log]; rewrite <- ?app_assoc; cbn [app].
  all: reflexivity.
Qed.

End Runs.

(** ** Conditional requests *)
Section Conditional.
Import NpmMiddleware.

(** C1. A request whose [if-none-match] header, once a [-gz] or [-br]
    suffix is removed, equals the ETag of the resolved specifier is answered
    [304] with no body: after the version is resolved the handler writes
    the head and ends the response, and does nothing else. The Cache
    Manager is not asked, the Bundle Builder and [handleAsset] are not run,
    and [npmCache] and the stored bundles are as before. *)
Theorem conditional_request_not_modified (host : Host) (o : Options)
    (req : Request) (w : World) (u : Url) (meta meta' : Meta) :
  parseURL host (url req) = Ok u ->
  normalizeSpecifier host (requestedModule u) = Ok meta ->
  resolvePackageVersion host meta = Ok meta' ->
  stripCompressionSuffix (JS.String_ (headers req !! "if-none-match"))
    = etagOf meta' ->
  npmMiddleware host o req w =
    (Ok tt,
     {| npmCache := npmCache w;
        bundles := bundles w;
        log := log w ++ [ EResolvePackageVersion meta;
                          EWriteHead 304 [];
                          EEnd None ] |}).
Proof.
  intros Hu Hn Hr Hm.
  rewrite (npmMiddleware_resolved host o req w u meta meta' Hu Hn Hr).
  rewrite respond_run. cbv zeta.
  unfold ifNoneMatch. rewrite Hm, String.eqb_refl.
  by rewrite logged_logged.
Qed.

Lemma conditional_request_not_modified_witness :
  Samples.observe
    (npmMiddleware Samples.host (Samples.options None)
       (Samples.get "/left-pad/index.js"
          (Some "bGVmdC1wYWQvaW5kZXguanMxLjAuMA==-gz"))
       Samples.start)
  = (Ok tt, None, [],
     [ EResolvePackageVersion
         {| module_ := "left-pad"; version := EmptyString;
            path := "index.js"; specifier := "left-pad/index.js" |};
       EWriteHead 304 [];
       EEnd None ]).
Proof.
  rewrite (conditional_request_not_modified Samples.host
             (Samples.options None) _ Samples.start
             {| pathname := "/left-pad/index.js"; searchParams := [] |}
             {| module_ := "left-pad"; version := EmptyString;
                path := "index.js"; specifier := "left-pad/index.js" |}
             {| module_ := "left-pad"; version := "1.0.0";
                path := "index.js"; specifier := "left-pad/index.js" |});
    reflexivity.
Defined.

End Conditional.

(** ** The ETag *)
Section ETag.
Import NpmMiddleware.

(** The ETag is a function of the specifier and the version alone: the
    handler sets the header to the same value whatever the state of the
    process, the options and the rest of the request. *)
Lemma etag_header_deterministic (host : Host) (o : Options) (req : Request)
    (u : Url) (mod_ : string) (meta : Meta) (w : World) :
  ifNoneMatch req <> etagOf meta ->
  exists es,
    log (snd (respond host o req u mod_ meta w))
      = (log w ++ ESetHeader "etag"
                    (JS.base64 (specifier meta +:+ version meta)) :: es)%list.
Proof.
  intros Hne. rewrite respond_run. cbv zeta.
  apply String.eqb_neq in Hne. rewrite Hne.
  destruct (isAssetPath (path meta)); [by exists [] |].
  destruct (bundles w !! etagOf meta) as [c |].
  { cbn [snd logged log]. rewrite <- app_assoc. by eexists. }
  match goal with
  | |- context [bundleNpmModule ?h ?m ?s ?a ?c ?w1] =>
      destruct (bundleNpmModule_bundles h m s a c w1) as (es & _ & Hl & _);
      destruct (bundleNpmModule h m s a c w1) as [[code | e] w2]
  end; cbn [snd served log] in *; rewrite Hl; cbn [logged log];
    rewrite <- ?app_assoc; cbn [app]; by eexists.
Qed.

(** Two resolved specifiers have the same ETag exactly when the
    concatenations of their specifier and version are the same string. *)
Lemma etagOf_eq_iff (m1 m2 : Meta) :
  etagOf m1 = etagOf m2
  <-> specifier m1 +:+ version m1 = specifier m2 +:+ version m2.
Proof.
  unfold etagOf. split; [apply base64_inj | congruence].
Qed.

(** C2. The ETag is the base64 encoding of the specifier followed at once
    by the version, with nothing between them. The package [a1] at version
    1.0.0 and the package [a] at version 11.0.0 are distinct pairs of a
    specifier and a version, and have the same ETag. *)
Theorem etag_collision :
  let m1 := {| module_ := "a1"; version := "1.0.0";
               path := EmptyString; specifier := "a1" |} in
  let m2 := {| module_ := "a"; version := "11.0.0";
               path := EmptyString; specifier := "a" |} in
  (specifier m1, version m1) <> (specifier m2, version m2)
  /\ etagOf m1 = "YTExLjAuMA=="
  /\ etagOf m2 = "YTExLjAuMA==".
Proof.
  cbv zeta. split; [discriminate |]. split; vm_compute; reflexivity.
Qed.

End ETag.

(** ** The guard of the load hooks *)
Section Guard.
Import NpmMiddleware.

Variable host : Host.

(** A module whose joined path does not begin with the characters of the
    root, and which no earlier stage supplies, reaches the last stage, which
    throws. *)
Lemma loadFirst_outside_prefix (provider : Plugin)
    (alias : option (gmap string string)) (cwd : option string)
    (id file : string) :
  provider = npmPlugin "/@npm" ->
  importedPass host id ->
  no_builtins_load id = Ok None ->
  JS.path_join cwd id = Ok file ->
  JS.startsWith file (JS.String_ cwd) = false ->
  loadFirst host (pipeline provider alias cwd) id
    = Throw "local access not allowed".
Proof.
  intros -> Hpass Hnb Hjoin Hpre.
  unfold pipeline. cbn [loadFirst pluginLoad].
  rewrite !Hpass by (try discriminate; intros; discriminate).
  rewrite Hnb.
  unfold npm_asset_load. rewrite Hjoin, Hpre. reflexivity.
Qed.

(** The load of one module that fails rejects the load of the graph. *)
Lemma loadModules_fails (plugins : list Plugin) (ids : list string)
    (id e : string) :
  id ∈ ids ->
  loadModule host plugins id = Throw e ->
  exists e', loadModules host plugins ids = Throw e'.
Proof.
  intros Hin Hl.
  induction ids as [| i rest IH]; [by apply elem_of_nil in Hin |].
  cbn [loadModules].
  apply elem_of_cons in Hin as [<- | Hin].
  - rewrite Hl. by eexists.
  - destruct (loadModule host plugins i) as [c | e0]; [| by eexists].
    destruct (IH Hin) as [e' ->]. by eexists.
Qed.

(** So a graph with such a module fails the build: [bundleNpmModule] throws,
    returns no code and leaves [npmCache] as it was. *)
Lemma build_outside_prefix_fails (mod_ source : string)
    (alias : option (gmap string string)) (cwd : option string)
    (id file : string) (w : World) :
  source <> "unpkg" ->
  id ∈ moduleIds host mod_ ->
  importedPass host id ->
  no_builtins_load id = Ok None ->
  JS.path_join cwd id = Ok file ->
  JS.startsWith file (JS.String_ cwd) = false ->
  exists e,
    bundleNpmModule host mod_ source alias cwd w
      = (Throw e, logged w [ERollup mod_]).
Proof.
  intros Hs Hin Hpass Hnb Hjoin Hpre.
  rewrite bundleNpmModule_run.
  apply String.eqb_neq in Hs. rewrite Hs.
  unfold rollup.
  destruct (loadModules_fails (pipeline (npmPlugin "/@npm") alias cwd)
              (moduleIds host mod_) id
              (couldNotLoad host id "local access not allowed") Hin)
    as [e' ->]; [| by eexists].
  unfold loadModule.
  by rewrite (loadFirst_outside_prefix _ alias cwd id file eq_refl
                Hpass Hnb Hjoin Hpre).
Qed.

End Guard.

(** ** Failed builds and the two caches *)
Section Builds.
Import NpmMiddleware.

Variable host : Host.

(** C4. When the Bundle Builder throws for the module a request names, the
    request stores nothing: the stored bundles are the same after the
    request as before it, none of its effects is a call of
    [setCachedBundle], and so a lookup of any key finds after the request
    what it found before. *)
Theorem failed_build_stores_nothing (o : Options) (req : Request)
    (w : World) :
  (forall u, parseURL host (url req) = Ok u ->
     is_ok (fst (bundleNpmModule host (requestedModule u) (sourceOrDefault o)
                   (alias o) (cwd o) w)) = false) ->
  let w' := snd (npmMiddleware host o req w) in
  bundles w' = bundles w
  /\ (exists es, log w' = (log w ++ es)%list
                 /\ Forall (fun e => isSetCachedBundle e = false) es)
  /\ forall etag meta c,
       fst (getCachedBundle etag meta c w') = fst (getCachedBundle etag meta c w).
Proof.
  intros Hfail.
  assert (bundles (snd (npmMiddleware host o req w)) = bundles w
          /\ exists es, log (snd (npmMiddleware host o req w))
                        = (log w ++ es)%list
                 /\ Forall (fun e => isSetCachedBundle e = false) es)
    as [Hb Hl].
  { rewrite npmMiddleware_run.
    destruct (parseURL host (url req)) as [u | e].
    2: { split; [reflexivity |]. exists []. by rewrite app_nil_r. }
    specialize (Hfail u eq_refl).
    destruct (normalizeSpecifier host (requestedModule u)) as [meta | e].
    2: { split; [reflexivity |]. exists []. by rewrite app_nil_r. }
    destruct (resolvePackageVersion host meta) as [meta' | e].
    2: { split; [reflexivity |]. eexists. split; [reflexivity |].
         repeat constructor. }
    rewrite respond_run. cbv zeta.
    destruct (String.eqb (ifNoneMatch req) (etagOf meta')).
    { rewrite logged_logged. split; [reflexivity |].
      eexists. split; [reflexivity |]. repeat constructor. }
    destruct (isAssetPath (path meta')).
    { rewrite handleAsset_run. cbv zeta.
      destruct (searchParams_has u "module");
        [| destruct (loadPackageFile host meta') as [bytes | e]];
        rewrite !logged_logged; cbn [snd logged bundles log];
        (split; [reflexivity |]);
        eexists; (split; [reflexivity |]); repeat constructor. }
    cbn [logged bundles].
    destruct (bundles w !! etagOf meta') as [c |].
    { rewrite !logged_logged. split; [reflexivity |].
      eexists. split; [reflexivity |]. repeat constructor. }
    rewrite logged_logged.
    match goal with
    | |- context [bundleNpmModule ?h ?m ?s ?a ?c ?w1] =>
        pose proof (bundleNpmModule_frame h m s a c w w1 eq_refl) as Hf;
        destruct (bundleNpmModule_bundles h m s a c w1) as (es & Hb & Hl & He);
        destruct (bundleNpmModule h m s a c w1) as [[code | e] w2]
    end; cbn [fst snd] in *.
    { rewrite <- Hf in Hfail. discriminate Hfail. }
    cbn [logged bundles log]. rewrite Hb, Hl. cbn [logged bundles log].
    split; [reflexivity |].
    rewrite <- !app_assoc. eexists. split; [reflexivity |].
    repeat (apply Forall_app; split); repeat constructor.
    eapply Forall_impl; [exact He |].
    by intros ? [-> | ->]. }
  split; [exact Hb |]. split; [exact Hl |].
  intros etag meta c. unfold getCachedBundle, bind, emit.
  cbn [fst logged bundles]. by rewrite Hb.
Qed.

(** C6, as the code has it. [npmCache] is replaced when, and only when, the
    build phase of the compiler ([rollup.rollup]) has completed: a build that
    is refused for its source, or whose build phase fails, leaves [npmCache]
    as it was, and a build whose build phase completes leaves the cache of
    that bundle, whatever the generation of the output does afterwards. *)
Theorem npmCache_replaced_after_build_phase (mod_ source : string)
    (alias : option (gmap string string)) (cwd : option string) (w : World) :
  npmCache (snd (bundleNpmModule host mod_ source alias cwd w)) =
    if String.eqb source "unpkg" then npmCache w
    else
      match rollup host mod_ (npmCache w)
              (pipeline (npmPlugin "/@npm") alias cwd) with
      | Ok b => Some (cache b)
      | Throw _ => npmCache w
      end.
Proof.
  rewrite bundleNpmModule_run.
  destruct (String.eqb source "unpkg"); [reflexivity |].
  destruct (rollup host mod_ (npmCache w) _) as [b | e]; [| reflexivity].
  destruct (generate b) as [[| first rest] | e]; reflexivity.
Qed.

(** C8, as the code has it. Every run of the Bundle Builder with the source
    [unpkg] throws [unpkg plugin is disabled] at once: the compiler is not
    called, no module is loaded, and the state is untouched. And a request
    under the source [unpkg] is answered exactly as under any other source,
    except when it reaches the Bundle Builder (its specifier is resolved, its
    validator is not the ETag, its subpath is no asset and the Cache Manager
    holds no bundle for it): then the error of the Bundle Builder goes to
    [next] and nothing is sent or stored. *)
Theorem unpkg_source_fails_the_build (a : option (gmap string string))
    (z : option bool) (c : option string) :
  (forall mod_ w,
     bundleNpmModule host mod_ "unpkg" a c w
       = (Throw "unpkg plugin is disabled", w))
  /\ forall (other : option string) (req : Request) (w : World),
       let unpkg :=
         {| source := Some "unpkg"; alias := a; optimize := z; cwd := c |} in
       let registry :=
         {| source := other; alias := a; optimize := z; cwd := c |} in
       npmMiddleware host unpkg req w = npmMiddleware host registry req w
       \/ exists u meta meta',
            parseURL host (url req) = Ok u
            /\ normalizeSpecifier host (requestedModule u) = Ok meta
            /\ resolvePackageVersion host meta = Ok meta'
            /\ ifNoneMatch req <> etagOf meta'
            /\ isAssetPath (path meta') = false
            /\ bundles w !! etagOf meta' = None
            /\ npmMiddleware host unpkg req w
               = (Ok tt,
                  {| npmCache := npmCache w;
                     bundles := bundles w;
                     log := log w
                            ++ [ EResolvePackageVersion meta;
                                 ESetHeader "etag" (etagOf meta');
                                 ESetHeader "content-type"
                                   "application/javascript;charset=utf-8";
                                 EGetCachedBundle (etagOf meta');
                                 ENext "unpkg plugin is disabled" ] |}).
Proof.
  split; [intros mod_ w; by rewrite bundleNpmModule_run |].
  intros other req w unpkg registry.
  rewrite !npmMiddleware_run.
  destruct (parseURL host (url req)) as [u | e] eqn:Hu; [| by left].
  destruct (normalizeSpecifier host (requestedModule u)) as [meta | e]
    eqn:Hn; [| by left].
  destruct (resolvePackageVersion host meta) as [meta' | e] eqn:Hr;
    [| by left].
  rewrite !respond_run. cbv zeta.
  destruct (String.eqb (ifNoneMatch req) (etagOf meta')) eqn:Hm; [by left |].
  destruct (isAssetPath (path meta')) eqn:Ha; [by left |].
  cbn [logged bundles].
  destruct (bundles w !! etagOf meta') as [b |] eqn:Hc; [by left |].
  right. exists u, meta, meta'.
  apply String.eqb_neq in Hm.
  repeat (split; [assumption || reflexivity |]).
  subst unpkg. cbn [sourceOrDefault source alias cwd].
  rewrite bundleNpmModule_run, String.eqb_refl.
  by rewrite !logged_logged.
Qed.

(** On the bundling path the failure of the disabled source goes to [next]
    after the lookup of the Cache Manager, and nothing is sent or stored. *)
Lemma unpkg_source_request (o : Options) (req : Request) (w : World)
    (u : Url) (meta meta' : Meta) :
  source o = Some "unpkg" ->
  parseURL host (url req) = Ok u ->
  normalizeSpecifier host (requestedModule u) = Ok meta ->
  resolvePackageVersion host meta = Ok meta' ->
  ifNoneMatch req <> etagOf meta' ->
  isAssetPath (path meta') = false ->
  bundles w !! etagOf meta' = None ->
  npmMiddleware host o req w =
    (Ok tt,
     logged w [ EResolvePackageVersion meta;
                ESetHeader "etag" (etagOf meta');
                ESetHeader "content-type"
                  "application/javascript;charset=utf-8";
                EGetCachedBundle (etagOf meta');
                ENext "unpkg plugin is disabled" ]).
Proof.
  intros Hs Hu Hn Hr Hm Ha Hc.
  rewrite (npmMiddleware_resolved host o req w u meta meta' Hu Hn Hr).
  rewrite respond_run. cbv zeta.
  apply String.eqb_neq in Hm. rewrite Hm, Ha.
  cbn [logged bundles]. rewrite Hc.
  unfold sourceOrDefault.
  rewrite Hs, bundleNpmModule_run, String.eqb_refl.
  by rewrite !logged_logged.
Qed.

(** C10. The body of a fresh bundle is the code of the first chunk of the
    output: when the build of the module of a request completes with the
    chunks [first :: rest], the handler sends the code of [first] with its
    length, stores it under the ETag, and asks for its compression unless
    [optimize] is [false]. The chunks of [rest] are neither sent nor
    stored. *)
Theorem fresh_bundle_is_first_chunk (o : Options) (req : Request)
    (w : World) (u : Url) (meta meta' : Meta) (b : RollupBuild)
    (first : OutputChunk) (rest : list OutputChunk) :
  parseURL host (url req) = Ok u ->
  normalizeSpecifier host (requestedModule u) = Ok meta ->
  resolvePackageVersion host meta = Ok meta' ->
  ifNoneMatch req <> etagOf meta' ->
  isAssetPath (path meta') = false ->
  bundles w !! etagOf meta' = None ->
  sourceOrDefault o <> "unpkg" ->
  rollup host (requestedModule u) (npmCache w)
    (pipeline (npmPlugin "/@npm") (alias o) (cwd o)) = Ok b ->
  generate b = Ok (first :: rest) ->
  npmMiddleware host o req w =
    (Ok tt,
     {| npmCache := Some (cache b);
        bundles := <[etagOf meta' := code first]> (bundles w);
        log := log w
               ++ [ EResolvePackageVersion meta;
                    ESetHeader "etag" (etagOf meta');
                    ESetHeader "content-type"
                      "application/javascript;charset=utf-8";
                    EGetCachedBundle (etagOf meta');
                    ERollup (requestedModule u);
                    EGenerate;
                    EWriteHead 200
                      [("content-length",
                        HNum (JS.byteLength (code first)))];
                    EEnd (Some (code first));
                    ESetCachedBundle (etagOf meta') (code first) ]
               ++ (if bool_decide (optimize o = Some false) then []
                   else [EEnqueueCompress (etagOf meta')]) |}).
Proof.
  intros Hu Hn Hr Hm Ha Hc Hs Hb Hg.
  rewrite (npmMiddleware_resolved host o req w u meta meta' Hu Hn Hr).
  rewrite respond_run. cbv zeta.
  apply String.eqb_neq in Hm. rewrite Hm, Ha.
  cbn [logged bundles]. rewrite Hc.
  rewrite bundleNpmModule_run.
  apply String.eqb_neq in Hs. rewrite Hs.
  rewrite !logged_logged. cbn [logged npmCache]. rewrite Hb, Hg.
  unfold served, built, logged. cbn [npmCache bundles log app].
  by rewrite <- !app_assoc.
Qed.

End Builds.

Import NpmMiddleware.

Lemma failed_build_stores_nothing_witness :
  Samples.observe
    (npmMiddleware Samples.hostGenerateFails (Samples.options None)
       (Samples.get "/left-pad/index.js" None) Samples.start)
  = (Ok tt,
     Some [("left-pad/index.js", "export default function leftPad(){}")],
     [],
     [ EResolvePackageVersion
         {| module_ := "left-pad"; version := EmptyString;
            path := "index.js"; specifier := "left-pad/index.js" |};
       ESetHeader "etag" "bGVmdC1wYWQvaW5kZXguanMxLjAuMA==";
       ESetHeader "content-type" "application/javascript;charset=utf-8";
       EGetCachedBundle "bGVmdC1wYWQvaW5kZXguanMxLjAuMA==";
       ERollup "left-pad/index.js";
       EGenerate;
       ENext "generate failed" ])
  /\ bundles (snd (npmMiddleware Samples.hostGenerateFails
                     (Samples.options None)
                     (Samples.get "/left-pad/index.js" None) Samples.start))
     = bundles Samples.start.
Proof.
  split; [vm_compute; reflexivity |].
  apply (failed_build_stores_nothing Samples.hostGenerateFails
           (Samples.options None) (Samples.get "/left-pad/index.js" None)
           Samples.start).
  intros u Hu. injection Hu as <-. vm_compute. reflexivity.
Defined.


(** ** Assets *)
Section Assets.
Import NpmMiddleware.

Lemma append_assoc (a b c : string) : (a +:+ b) +:+ c = a +:+ b +:+ c.
Proof.
  induction a as [| x a IH]; [reflexivity |].
  change (String x ((a +:+ b) +:+ c) = String x (a +:+ b +:+ c)).
  by rewrite IH.
Qed.

(** The escape of a byte is read by the scanner as plain or escaped
    characters of the literal, and never as its closing quote. *)
Lemma jsonEscape_scanned (c : ascii) (rest : string) :
  JS.closesAtEnd false (JS.jsonEscape c +:+ rest) = JS.closesAtEnd false rest.
Proof.
  destruct c as [[] [] [] [] [] [] [] []]; reflexivity.
Qed.

Lemma jsonEscapeAll_closes (s : string) :
  JS.closesAtEnd false (JS.jsonEscapeAll s +:+ JS.dquote) = true.
Proof.
  induction s as [| c s IH]; [reflexivity |].
  cbn [JS.jsonEscapeAll]. by rewrite append_assoc, jsonEscape_scanned.
Qed.

(** [JSON.stringify] of a string is one string literal. *)
Lemma JSON_stringify_literal (s : string) :
  JS.isStringLiteral (JS.JSON_stringify s) = true.
Proof.
  change (JS.isStringLiteral
            (String (ascii_of_N 34) (JS.jsonEscapeAll s +:+ JS.dquote))
          = true).
  cbn [JS.isStringLiteral]. rewrite jsonEscapeAll_closes. reflexivity.
Qed.

Variable host : Host.

(** The run of a request for a subpath with a stylesheet extension, once
    its version is resolved and when its [if-none-match] is not the ETag: it
    is answered by [handleAsset]. With the [module] flag the answer is [200],
    of type [application/javascript;charset=utf-8], and its body is the proxy
    module: the import of [style] from the runtime, a line break, and the call
    of [style] on the [specifier] of the code, the JSON string literal of
    [/@npm/<specifier>?asset], which is one string literal. Without the flag
    the file of the package is loaded and the answer is [200] with the bytes
    of the file as its body, and for its type the type the mime table gives
    to the subpath ([text/plain] when it gives none). *)
Lemma stylesheet_asset_run (o : Options) (req : Request) (w : World)
    (u : Url) (meta meta' : Meta) :
  parseURL host (url req) = Ok u ->
  normalizeSpecifier host (requestedModule u) = Ok meta ->
  resolvePackageVersion host meta = Ok meta' ->
  ifNoneMatch req <> etagOf meta' ->
  isStylesheetPath (path meta') = true ->
  let literal :=
    JS.JSON_stringify ("/@npm/" +:+ specifier meta' +:+ "?asset") in
  let proxy :=
    "import{style}from '/_wmr.js';" +:+ String (ascii_of_N 10) EmptyString
    +:+ "style(" +:+ literal +:+ ");" in
  JS.isStringLiteral literal = true
  /\ npmMiddleware host o req w =
       if searchParams_has u "module" then
         (Ok tt,
          logged w
            [ EResolvePackageVersion meta;
              ESetHeader "etag" (etagOf meta');
              EWriteHead 200
                [("content-type",
                  HStr "application/javascript;charset=utf-8");
                 ("content-length", HNum (JS.byteLength proxy))];
              EEnd (Some proxy) ])
       else
         match loadPackageFile host meta' with
         | Ok bytes =>
             (Ok tt,
              logged w
                [ EResolvePackageVersion meta;
                  ESetHeader "etag" (etagOf meta');
                  ELoadPackageFile meta';
                  EWriteHead 200
                    [("content-type",
                      HStr (match getMimeType host (path meta') with
                            | Some (String c t) => String c t
                            | _ => "text/plain"
                            end));
                     ("content-length", HNum (JS.byteLength bytes))];
                  EEnd (Some bytes) ])
         | Throw e =>
             (Throw e,
              logged w
                [ EResolvePackageVersion meta;
                  ESetHeader "etag" (etagOf meta');
                  ELoadPackageFile meta' ])
         end.
Proof.
  intros Hu Hn Hr Hm Hs literal proxy.
  split; [apply JSON_stringify_literal |].
  rewrite (npmMiddleware_resolved host o req w u meta meta' Hu Hn Hr).
  rewrite respond_run. cbv zeta.
  apply String.eqb_neq in Hm. rewrite Hm.
  unfold isAssetPath. rewrite Hs. cbn [orb].
  rewrite handleAsset_run. cbv zeta.
  destruct (searchParams_has u "module").
  { by rewrite !logged_logged. }
  destruct (loadPackageFile host meta') as [bytes | e];
    rewrite !logged_logged; [| reflexivity].
  unfold orTextPlain.
  by destruct (getMimeType host (path meta')) as [[| c t] |].
Qed.

(** C5. A request for a subpath with a stylesheet extension, once its
    version is resolved and when its [if-none-match] is not the ETag, is
    answered by [handleAsset]. With the [module] flag the answer is [200],
    of type [application/javascript;charset=utf-8], and its body is the proxy
    module: the import of [style] from the runtime, a line break, and the call
    of [style] on the [specifier] of the code, the JSON string literal of
    [/@npm/<specifier>?asset], which is one string literal. Without the flag
    the file of the package is loaded and the answer is [200] with the bytes
    of the file as its body and a stylesheet content type: with a mime table
    as specified, the type of the answer is the stylesheet type the table
    gives to the subpath, and the fallback [text/plain] is not used. *)
Theorem stylesheet_asset_dispatch (o : Options) (req : Request) (w : World)
    (u : Url) (meta meta' : Meta) :
  MimeSpec.stylesheetTable host ->
  parseURL host (url req) = Ok u ->
  normalizeSpecifier host (requestedModule u) = Ok meta ->
  resolvePackageVersion host meta = Ok meta' ->
  ifNoneMatch req <> etagOf meta' ->
  isStylesheetPath (path meta') = true ->
  let literal :=
    JS.JSON_stringify ("/@npm/" +:+ specifier meta' +:+ "?asset") in
  let proxy :=
    "import{style}from '/_wmr.js';" +:+ String (ascii_of_N 10) EmptyString
    +:+ "style(" +:+ literal +:+ ");" in
  JS.isStringLiteral literal = true
  /\ exists type,
       getMimeType host (path meta') = Some type
       /\ MimeSpec.isStylesheetType type = true
       /\ npmMiddleware host o req w =
            if searchParams_has u "module" then
              (Ok tt,
               logged w
                 [ EResolvePackageVersion meta;
                   ESetHeader "etag" (etagOf meta');
                   EWriteHead 200
                     [("content-type",
                       HStr "application/javascript;charset=utf-8");
                      ("content-length", HNum (JS.byteLength proxy))];
                   EEnd (Some proxy) ])
            else
              match loadPackageFile host meta' with
              | Ok bytes =>
                  (Ok tt,
                   logged w
                     [ EResolvePackageVersion meta;
                       ESetHeader "etag" (etagOf meta');
                       ELoadPackageFile meta';
                       EWriteHead 200
                         [("content-type", HStr type);
                          ("content-length", HNum (JS.byteLength bytes))];
                       EEnd (Some bytes) ])
              | Throw e =>
                  (Throw e,
                   logged w
                     [ EResolvePackageVersion meta;
                       ESetHeader "etag" (etagOf meta');
                       ELoadPackageFile meta' ])
              end.
Proof.
  intros Htable Hu Hn Hr Hm Hs literal proxy.
  destruct (stylesheet_asset_run o req w u meta meta' Hu Hn Hr Hm Hs)
    as [Hlit Hrun].
  split; [exact Hlit |].
  destruct (Htable (path meta') Hs) as (type & Htype & Hstyle).
  exists type. split; [exact Htype |]. split; [exact Hstyle |].
  rewrite Hrun, Htype.
  destruct type as [| c t]; [discriminate Hstyle | reflexivity].
Qed.

End Assets.

(** ** The specifier normaliser and the version resolver *)
Section FailFast.
Import NpmMiddleware.

Variable host : Host.

(** A version that cannot be resolved goes to [next], and the request ends
    there: no lookup, no build, no answer. *)
Lemma resolver_failure_goes_to_next (o : Options) (req : Request)
    (w : World) (u : Url) (meta : Meta) (e : string) :
  parseURL host (url req) = Ok u ->
  normalizeSpecifier host (requestedModule u) = Ok meta ->
  resolvePackageVersion host meta = Throw e ->
  npmMiddleware host o req w
    = (Ok tt, logged w [EResolvePackageVersion meta; ENext e]).
Proof.
  intros Hu Hn Hr. by rewrite npmMiddleware_run, Hu, Hn, Hr.
Qed.

(** C7. The call of the normaliser is not inside a [try] block. A
    specifier that is refused ends the request before any effect, so before
    any lookup and any build, but its error is not handed to [next]: the
    promise of the handler is rejected with it, and the state is the one the
    request found. *)
Theorem refused_specifier_rejects_without_next (o : Options) (req : Request) (w : World)
    (u : Url) (e : string) :
  parseURL host (url req) = Ok u ->
  normalizeSpecifier host (requestedModule u) = Throw e ->
  npmMiddleware host o req w = (Throw e, w).
Proof.
  intros Hu Hn. by rewrite npmMiddleware_run, Hu, Hn.
Qed.

End FailFast.

(** ** The pipeline of [npmBundle] *)
Section LocalPackages.
Import NpmBundle.

(** C9. The stage [npmLocalPackage] is in the pipeline of [npmBundle]
    exactly when [DISABLE_LOCAL_NPM] is not set (or is the empty string):
    set to a value, the pipeline is the one without the stage, in which
    [npmLoad] is the only stage left that supplies modules; not set, the stage
    stands between [npmExternalDeps] and the optional [npmAutoInstall]. *)
Theorem local_package_stage_follows_switch (env : gmap string string)
    (root requestId : string) (autoInstall : bool) :
  stages env root requestId autoInstall =
    match env !! "DISABLE_LOCAL_NPM" with
    | Some (String _ _) =>
        [ virtual_entry requestId; browserFieldPlugin;
          npmExternalDeps requestId ]
        ++ (if autoInstall then [npmAutoInstall root] else [])
        ++ [ npmLoad; commonjsPlugin; subPackageLegacy requestId ]
    | _ =>
        [ virtual_entry requestId; browserFieldPlugin;
          npmExternalDeps requestId; npmLocalPackage root ]
        ++ (if autoInstall then [npmAutoInstall root] else [])
        ++ [ npmLoad; commonjsPlugin; subPackageLegacy requestId ]
    end%list
  /\ (npmLocalPackage root ∈ stages env root requestId autoInstall
      <-> JS.truthy (env !! "DISABLE_LOCAL_NPM") = false).
Proof.
  unfold stages, plugins, DISABLE_LOCAL_NPM.
  destruct (env !! "DISABLE_LOCAL_NPM") as [[| c v] |], autoInstall;
    cbn; (split; [reflexivity |]); split; try done;
    intros Hin; try (exfalso; revert Hin; rewrite !elem_of_cons, elem_of_nil;
      intros H; repeat destruct H as [H | H]; done);
    rewrite !elem_of_cons; auto 10.
Qed.

End LocalPackages.

(** ** The handlers on the sample registry *)
Section OnTheRegistry.
Import NpmMiddleware Samples.

(** C3. The guard of the [npm-asset] stage compares characters, not names.
    With the root [/app], the module [../app-secret/x] is joined to
    [/app-secret/x], which is outside the root and begins with the characters
    of the root: the hook answers with a default export of the id instead of
    leaving the module to the [never-disk] stage, the load of the pipeline
    succeeds, and the build of a graph with this module returns code. *)
Theorem npm_asset_load_passes_sibling_of_root :
  let cwd := Some "/app" in
  let id := "../app-secret/x" in
  let stub := "export default " +:+ JS.dquote +:+ id +:+ JS.dquote +:+ ";" in
  JS.path_join cwd id = Ok "/app-secret/x"
  /\ Spec.withinRoot "/app" "/app-secret/x" = false
  /\ npm_asset_load cwd id = Ok (Some stub)
  /\ loadFirst host (pipeline (npmPlugin "/@npm") None cwd) id
     = Ok (Some stub)
  /\ fst (bundleNpmModule host "some-pkg/index.js" "npm" None cwd start)
     = Ok stub.
Proof. cbv zeta. repeat split; vm_compute; reflexivity. Qed.

(** A module that is outside the root by its characters too is left to the
    [never-disk] stage, which refuses it. *)
Example outside_prefix_is_refused :
  JS.path_join (Some "/app") "../../etc/passwd" = Ok "/etc/passwd"
  /\ loadFirst host (pipeline (npmPlugin "/@npm") None (Some "/app"))
       "../../etc/passwd"
     = Throw "local access not allowed".
Proof. split; reflexivity. Qed.

Example stylesheet_asset_run_on_registry :
  observe (npmMiddleware host (options None)
             (get "/some-pkg/theme.css?module" None) start)
  = (Ok tt, None, [],
     [ EResolvePackageVersion (theme EmptyString);
       ESetHeader "etag" "c29tZS1wa2cvdGhlbWUuY3NzMS4wLjA=";
       EWriteHead 200
         [("content-type", HStr "application/javascript;charset=utf-8");
          ("content-length", HNum 70)];
       EEnd (Some ("import{style}from '/_wmr.js';"
                   +:+ String (ascii_of_N 10) EmptyString
                   +:+ "style(" +:+ JS.dquote
                   +:+ "/@npm/some-pkg/theme.css?asset" +:+ JS.dquote
                   +:+ ");")) ])
  /\ observe (npmMiddleware host (options None)
                (get "/some-pkg/theme.css" None) start)
     = (Ok tt, None, [],
        [ EResolvePackageVersion (theme EmptyString);
          ESetHeader "etag" "c29tZS1wa2cvdGhlbWUuY3NzMS4wLjA=";
          ELoadPackageFile (theme "1.0.0");
          EWriteHead 200
            [("content-type", HStr "text/css");
             ("content-length", HNum 15)];
          EEnd (Some "body{color:red}") ]).
Proof.
  assert (Hne : forall r, ifNoneMatch (get r None) <> etagOf (theme "1.0.0"))
    by (intros r H; vm_compute in H; discriminate H).
  split.
  - destruct (stylesheet_asset_run host (options None)
                (get "/some-pkg/theme.css?module" None) start
                {| pathname := "/some-pkg/theme.css";
                   searchParams := [("module", EmptyString)] |}
                (theme EmptyString) (theme "1.0.0")
                eq_refl eq_refl eq_refl (Hne _) eq_refl) as [_ ->].
    vm_compute. reflexivity.
  - destruct (stylesheet_asset_run host (options None)
                (get "/some-pkg/theme.css" None) start
                {| pathname := "/some-pkg/theme.css"; searchParams := [] |}
                (theme EmptyString) (theme "1.0.0")
                eq_refl eq_refl eq_refl (Hne _) eq_refl) as [_ ->].
    vm_compute. reflexivity.
Qed.

(** C6, as it is stated, fails: a build whose output cannot be generated
    throws, and has replaced [npmCache] by the cache of its bundle. *)
Lemma failed_generate_replaces_npmCache :
  let r := bundleNpmModule hostGenerateFails "left-pad/index.js" "npm" None
             (Some "/app") start in
  fst r = Throw "generate failed"
  /\ npmCache start = None
  /\ npmCache (snd r)
     = Some [("left-pad/index.js", "export default function leftPad(){}")].
Proof. cbv zeta. repeat split; vm_compute; reflexivity. Qed.

(** C8, as it is stated, fails: with the source [unpkg] selected, a request
    for a stylesheet loads the file of the package and is answered [200];
    nothing fails. *)
Lemma unpkg_source_serves_stylesheet :
  observe (npmMiddleware host (options (Some "unpkg"))
             (get "/some-pkg/theme.css" None) start)
  = (Ok tt, None, [],
     [ EResolvePackageVersion (theme EmptyString);
       ESetHeader "etag" "c29tZS1wa2cvdGhlbWUuY3NzMS4wLjA=";
       ELoadPackageFile (theme "1.0.0");
       EWriteHead 200
         [("content-type", HStr "text/css"); ("content-length", HNum 15)];
       EEnd (Some "body{color:red}") ]).
Proof. vm_compute. reflexivity. Qed.

Lemma fresh_bundle_is_first_chunk_witness :
  observe (npmMiddleware host (options None)
             (get "/left-pad/index.js" None) start)
  = (Ok tt,
     Some [("left-pad/index.js", "export default function leftPad(){}")],
     [("bGVmdC1wYWQvaW5kZXguanMxLjAuMA==",
       "export default function leftPad(){}")],
     [ EResolvePackageVersion (leftPad EmptyString);
       ESetHeader "etag" "bGVmdC1wYWQvaW5kZXguanMxLjAuMA==";
       ESetHeader "content-type" "application/javascript;charset=utf-8";
       EGetCachedBundle "bGVmdC1wYWQvaW5kZXguanMxLjAuMA==";
       ERollup "left-pad/index.js";
       EGenerate;
       EWriteHead 200 [("content-length", HNum 35)];
       EEnd (Some "export default function leftPad(){}");
       ESetCachedBundle "bGVmdC1wYWQvaW5kZXguanMxLjAuMA=="
         "export default function leftPad(){}";
       EEnqueueCompress "bGVmdC1wYWQvaW5kZXguanMxLjAuMA==" ]).
Proof.
  assert (Hne : ifNoneMatch (get "/left-pad/index.js" None)
                <> etagOf (leftPad "1.0.0"))
    by (intros H; vm_compute in H; discriminate H).
  rewrite (fresh_bundle_is_first_chunk host (options None)
             (get "/left-pad/index.js" None) start
             {| pathname := "/left-pad/index.js"; searchParams := [] |}
             (leftPad EmptyString) (leftPad "1.0.0")
             {| cache := [("left-pad/index.js",
                           "export default function leftPad(){}")];
                generate :=
                  Ok [ {| fileName := "index.js";
                          code := "export default function leftPad(){}" |};
                       {| fileName := "chunk-1.js";
                          code := "export {};" |} ] |}
             {| fileName := "index.js";
                code := "export default function leftPad(){}" |}
             [ {| fileName := "chunk-1.js"; code := "export {};" |} ]
             eq_refl eq_refl eq_refl Hne eq_refl eq_refl
             ltac:(discriminate) eq_refl eq_refl).
  vm_compute. reflexivity.
Defined.

Lemma refused_specifier_rejects_without_next_witness :
  observe (npmMiddleware host (options None) (get "/" None) start)
  = (Throw "Invalid specifier: ", None, [], []).
Proof.
  rewrite (refused_specifier_rejects_without_next host (options None)
             (get "/" None) start
             {| pathname := "/"; searchParams := [] |}
             "Invalid specifier: " eq_refl eq_refl).
  reflexivity.
Defined.

End OnTheRegistry.

(** * Further properties of the handlers *)

(** ** Every way through the handler *)
Section Handler.
Import NpmMiddleware Observations.

Variable host : Host.

Lemma effects_app (w : World) (c : option RollupCache)
    (b : gmap string string) (es : list Event) :
  effects w {| npmCache := c; bundles := b; log := log w ++ es |} = es.
Proof. unfold effects. cbn [log]. by rewrite drop_app_length. Qed.

Lemma effects_same (w : World) : effects w w = [].
Proof. unfold effects. by rewrite drop_all. Qed.

(** The final state of each way through the handler is put in the form of
    a record whose log is the log before followed by the effects. *)
Ltac settle :=
  rewrite ?logged_logged; unfold served, built, logged;
  cbn [npmCache bundles log fst snd]; rewrite <- ?app_assoc; cbn [app];
  rewrite ?effects_app, ?effects_same.

(** One goal per way through the [try] block that answers. *)
Ltac answer_ways o req w :=
  rewrite respond_run; cbv zeta;
  destruct (String.eqb (ifNoneMatch req) (etagOf _)) eqn:?Hm;
  [ | destruct (isAssetPath (path _)) eqn:?Ha;
      [ rewrite handleAsset_run; cbv zeta;
        destruct (searchParams_has _ "module") eqn:?Hq;
        [ | destruct (loadPackageFile host _) as [?bytes | ?e] eqn:?Hl ]
      | cbn [logged bundles];
        destruct (bundles w !! etagOf _) as [?c |] eqn:?Hc;
        [ | rewrite bundleNpmModule_run;
            destruct (String.eqb (sourceOrDefault o) "unpkg") eqn:?Hs;
            [ | cbn [logged npmCache];
                destruct (rollup host _ (npmCache w) _) as [?b | ?e] eqn:?Hb;
                [ destruct (generate _) as [[| ?first ?rest] | ?e] eqn:?Hg
                | ] ] ] ] ];
  settle;
  try match goal with
      | |- context [bool_decide (optimize o = Some false)] =>
          destruct (bool_decide (optimize o = Some false)) eqn:?Ho
      end.

(** One goal per way through the handler. *)
Ltac ways o req w :=
  rewrite ?npmMiddleware_run;
  destruct (parseURL host (url req)) as [?u | ?e] eqn:?Hu;
  [ destruct (normalizeSpecifier host (requestedModule _)) as [?meta | ?e]
      eqn:?Hn;
    [ destruct (resolvePackageVersion host _) as [?meta' | ?e] eqn:?Hr;
      [ answer_ways o req w | settle ]
    | settle ]
  | settle ].

(** One goal per way through the handler once the specifier is resolved. *)
Ltac resolved_ways o req w Hu Hn Hr :=
  rewrite (npmMiddleware_resolved host o req w _ _ _ Hu Hn Hr);
  answer_ways o req w.

(** X1. The handler answers exactly once. When the promise of the handler
    is fulfilled, exactly one of these has happened, once: the head of a
    response was written, a stored bundle was sent, or [next] was called.
    When the promise is rejected, none of them has happened. *)
Theorem answered_exactly_once (o : Options) (req : Request) (w : World) :
  length (List.filter isAnswer
            (effects w (snd (npmMiddleware host o req w))))
  = if is_ok (fst (npmMiddleware host o req w)) then 1 else 0.
Proof. ways o req w; reflexivity. Qed.

(** X4. A request for an asset (a stylesheet, [.wasm], [.txt] or [.json]
    subpath) that is not answered [304] never reaches the Cache Manager or
    the compiler, and leaves [npmCache] and the stored bundles as they
    were. *)
Theorem asset_requests_bypass_cache_and_compiler (o : Options)
    (req : Request) (w : World) (u : Url) (meta meta' : Meta) :
  parseURL host (url req) = Ok u ->
  normalizeSpecifier host (requestedModule u) = Ok meta ->
  resolvePackageVersion host meta = Ok meta' ->
  isAssetPath (path meta') = true ->
  let w' := snd (npmMiddleware host o req w) in
  npmCache w' = npmCache w
  /\ bundles w' = bundles w
  /\ forallb (fun e => negb (isCacheOrCompiler e)) (effects w w') = true.
Proof.
  intros Hu Hn Hr Ha. cbv zeta.
  resolved_ways o req w Hu Hn Hr; simplify_eq; by repeat split.
Qed.

(** X5. When the file of an asset cannot be loaded, the promise of the
    handler is rejected with the error of [loadPackageFile]: [handleAsset]
    is returned without being awaited, so the error is not passed to [next],
    and no head or body is written. *)
Theorem asset_load_failure_rejects (o : Options) (req : Request) (w : World)
    (u : Url) (meta meta' : Meta) (e : string) :
  parseURL host (url req) = Ok u ->
  normalizeSpecifier host (requestedModule u) = Ok meta ->
  resolvePackageVersion host meta = Ok meta' ->
  ifNoneMatch req <> etagOf meta' ->
  isAssetPath (path meta') = true ->
  searchParams_has u "module" = false ->
  loadPackageFile host meta' = Throw e ->
  npmMiddleware host o req w =
    (Throw e,
     logged w [ EResolvePackageVersion meta;
                ESetHeader "etag" (etagOf meta');
                ELoadPackageFile meta' ]).
Proof.
  intros Hu Hn Hr Hm Ha Hq Hl.
  rewrite (npmMiddleware_resolved host o req w u meta meta' Hu Hn Hr).
  rewrite respond_run. cbv zeta.
  apply String.eqb_neq in Hm. rewrite Hm, Ha.
  rewrite handleAsset_run, Hq, Hl. by rewrite !logged_logged.
Qed.

(** X6. A bundle the Cache Manager holds under the ETag is sent as it is:
    the compiler is not run, whatever the source that is selected, nothing is
    stored and no compression is asked for. *)
Theorem cache_hit_served (o : Options) (req : Request) (w : World)
    (u : Url) (meta meta' : Meta) (c : string) :
  parseURL host (url req) = Ok u ->
  normalizeSpecifier host (requestedModule u) = Ok meta ->
  resolvePackageVersion host meta = Ok meta' ->
  ifNoneMatch req <> etagOf meta' ->
  isAssetPath (path meta') = false ->
  bundles w !! etagOf meta' = Some c ->
  npmMiddleware host o req w =
    (Ok tt,
     logged w [ EResolvePackageVersion meta;
                ESetHeader "etag" (etagOf meta');
                ESetHeader "content-type"
                  "application/javascript;charset=utf-8";
                EGetCachedBundle (etagOf meta');
                ESendCachedBundle c ]).
Proof.
  intros Hu Hn Hr Hm Ha Hc.
  rewrite (npmMiddleware_resolved host o req w u meta meta' Hu Hn Hr).
  rewrite respond_run. cbv zeta.
  apply String.eqb_neq in Hm. rewrite Hm, Ha.
  cbn [logged bundles]. rewrite Hc. by rewrite !logged_logged.
Qed.

(** The state a request that builds a fresh bundle ends in. *)
Lemma fresh_bundle_run (o : Options) (req : Request) (w : World) (u : Url)
    (meta meta' : Meta) (b : RollupBuild) (first : OutputChunk)
    (rest : list OutputChunk) :
  parseURL host (url req) = Ok u ->
  normalizeSpecifier host (requestedModule u) = Ok meta ->
  resolvePackageVersion host meta = Ok meta' ->
  ifNoneMatch req <> etagOf meta' ->
  isAssetPath (path meta') = false ->
  bundles w !! etagOf meta' = None ->
  sourceOrDefault o <> "unpkg" ->
  rollup host (requestedModule u) (npmCache w)
    (pipeline (npmPlugin "/@npm") (alias o) (cwd o)) = Ok b ->
  generate b = Ok (first :: rest) ->
  npmMiddleware host o req w =
    (Ok tt,
     served o
       (built (logged w [ EResolvePackageVersion meta;
                          ESetHeader "etag" (etagOf meta');
                          ESetHeader "content-type"
                            "application/javascript;charset=utf-8";
                          EGetCachedBundle (etagOf meta') ])
          (requestedModule u) b)
       (etagOf meta') (code first)).
Proof.
  intros Hu Hn Hr Hm Ha Hc Hs Hb Hg.
  rewrite (npmMiddleware_resolved host o req w u meta meta' Hu Hn Hr).
  rewrite respond_run. cbv zeta.
  apply String.eqb_neq in Hm. rewrite Hm, Ha.
  cbn [logged bundles]. rewrite Hc.
  rewrite bundleNpmModule_run.
  apply String.eqb_neq in Hs. rewrite Hs.
  rewrite !logged_logged. cbn [logged npmCache]. by rewrite Hb, Hg.
Qed.

(** X7. Store and lookup compose. After a request has built and stored a
    fresh bundle, the same request made again is answered from the Cache
    Manager with the code that was stored, the code of the first chunk: the
    compiler is not run a second time and [npmCache] stays as the first
    request left it. *)
Theorem fresh_then_cached (o : Options) (req : Request) (w : World)
    (u : Url) (meta meta' : Meta) (b : RollupBuild) (first : OutputChunk)
    (rest : list OutputChunk) :
  parseURL host (url req) = Ok u ->
  normalizeSpecifier host (requestedModule u) = Ok meta ->
  resolvePackageVersion host meta = Ok meta' ->
  ifNoneMatch req <> etagOf meta' ->
  isAssetPath (path meta') = false ->
  bundles w !! etagOf meta' = None ->
  sourceOrDefault o <> "unpkg" ->
  rollup host (requestedModule u) (npmCache w)
    (pipeline (npmPlugin "/@npm") (alias o) (cwd o)) = Ok b ->
  generate b = Ok (first :: rest) ->
  let w1 := snd (npmMiddleware host o req w) in
  npmMiddleware host o req w1 =
    (Ok tt,
     logged w1 [ EResolvePackageVersion meta;
                 ESetHeader "etag" (etagOf meta');
                 ESetHeader "content-type"
                   "application/javascript;charset=utf-8";
                 EGetCachedBundle (etagOf meta');
                 ESendCachedBundle (code first) ]).
Proof.
  intros Hu Hn Hr Hm Ha Hc Hs Hb Hg w1.
  assert (Hstored : bundles w1 !! etagOf meta' = Some (code first)).
  { subst w1.
    rewrite (fresh_bundle_run o req w u meta meta' b first rest)
      by assumption.
    cbn [snd served bundles]. apply lookup_insert_eq. }
  rewrite (npmMiddleware_resolved host o req w1 u meta meta' Hu Hn Hr).
  rewrite respond_run. cbv zeta.
  apply String.eqb_neq in Hm. rewrite Hm, Ha.
  cbn [logged bundles]. rewrite Hstored. by rewrite !logged_logged.
Qed.

(** X8. When the Bundle Builder throws, its error is what [next] receives,
    after the effects of the compiler; no head and no body are written, and
    no compression is asked for. *)
Theorem build_failure_goes_to_next (o : Options) (req : Request) (w : World)
    (u : Url) (meta meta' : Meta) (e : string) :
  parseURL host (url req) = Ok u ->
  normalizeSpecifier host (requestedModule u) = Ok meta ->
  resolvePackageVersion host meta = Ok meta' ->
  ifNoneMatch req <> etagOf meta' ->
  isAssetPath (path meta') = false ->
  bundles w !! etagOf meta' = None ->
  fst (bundleNpmModule host (requestedModule u) (sourceOrDefault o) (alias o)
         (cwd o) w) = Throw e ->
  let r := npmMiddleware host o req w in
  fst r = Ok tt
  /\ exists es,
       Forall (fun x => x = ERollup (requestedModule u) \/ x = EGenerate) es
       /\ effects w (snd r)
          = ([ EResolvePackageVersion meta;
               ESetHeader "etag" (etagOf meta');
               ESetHeader "content-type"
                 "application/javascript;charset=utf-8";
               EGetCachedBundle (etagOf meta') ]
             ++ es ++ [ENext e])%list.
Proof.
  intros Hu Hn Hr Hm Ha Hc He. cbv zeta.
  rewrite bundleNpmModule_run in He.
  apply String.eqb_neq in Hm.
  resolved_ways o req w Hu Hn Hr; simplify_eq; cbn [fst] in He; simplify_eq;
    (split; [reflexivity |]).
  - by exists [].
  - exists [ERollup (requestedModule u); EGenerate]. split; auto.
  - exists [ERollup (requestedModule u); EGenerate]. split; auto.
  - exists [ERollup (requestedModule u)]. split; auto.
Qed.

(** X9. Compression is asked for exactly when the request has stored a
    fresh bundle and [optimize] is not [false]. *)
Theorem compression_enqueued_iff_stored (o : Options) (req : Request)
    (w : World) :
  let es := effects w (snd (npmMiddleware host o req w)) in
  existsb isEnqueueCompress es
  = negb (bool_decide (optimize o = Some false))
    && existsb isSetCachedBundle es.
Proof.
  cbv zeta. ways o req w; cbn; rewrite ?andb_false_r; reflexivity.
Qed.

(** X10. The ETag header is set before the request is answered in any way
    but by a [304]: also when the build then fails and the error goes to
    [next], the response already carries the ETag. *)
Theorem etag_header_precedes_answer (o : Options) (req : Request)
    (w : World) (u : Url) (meta meta' : Meta) :
  parseURL host (url req) = Ok u ->
  normalizeSpecifier host (requestedModule u) = Ok meta ->
  resolvePackageVersion host meta = Ok meta' ->
  ifNoneMatch req <> etagOf meta' ->
  exists es,
    effects w (snd (npmMiddleware host o req w))
    = EResolvePackageVersion meta :: ESetHeader "etag" (etagOf meta') :: es.
Proof.
  intros Hu Hn Hr Hm. apply String.eqb_neq in Hm.
  resolved_ways o req w Hu Hn Hr; simplify_eq; by eexists.
Qed.

(** X12. A version that cannot be resolved ends the request at once: the
    error of the resolver goes to [next] as it is, the Cache Manager and the
    compiler are not reached, and no header, head or body is written. *)
Theorem unresolved_version_goes_to_next (o : Options) (req : Request)
    (w : World) (u : Url) (meta : Meta) (e : string) :
  parseURL host (url req) = Ok u ->
  normalizeSpecifier host (requestedModule u) = Ok meta ->
  resolvePackageVersion host meta = Throw e ->
  npmMiddleware host o req w
    = (Ok tt,
       {| npmCache := npmCache w;
          bundles := bundles w;
          log := log w ++ [EResolvePackageVersion meta; ENext e] |}).
Proof.
  intros Hu Hn Hr. by rewrite npmMiddleware_run, Hu, Hn, Hr.
Qed.

(** X13. The ETag tells apart exactly the concatenations of specifier and
    version: two resolved specifiers get the same ETag when, and only when,
    the specifier of one followed by its version is the same string as the
    specifier of the other followed by its version. The base64 encoding
    itself never merges two keys. *)
Theorem etag_equal_iff_concatenation (m1 m2 : Meta) :
  etagOf m1 = etagOf m2
  <-> specifier m1 +:+ version m1 = specifier m2 +:+ version m2.
Proof.
  unfold etagOf. split; [apply base64_inj | by intros ->].
Qed.

(** The length of a base64 encoding is a multiple of four. *)
Lemma base64_length (s : string) :
  exists k, String.length (JS.base64 s) = 4 * k.
Proof.
  remember (String.length s) as n eqn:Hn.
  revert s Hn.
  induction n as [n IH] using lt_wf_ind.
  intros s Hn.
  destruct s as [|[a0 a1 a2 a3 a4 a5 a6 a7] [|[b0 b1 b2 b3 b4 b5 b6 b7]
                   [|[c0 c1 c2 c3 c4 c5 c6 c7] s']]];
    cbn [JS.base64 String.length];
    [by exists 0 | by exists 1 | by exists 1 |].
  destruct (IH (String.length s')) with (s := s') as [k Hk];
    [subst n; cbn [String.length]; lia | reflexivity |].
  exists (S k). lia.
Qed.

Lemma append_empty_r (s : string) : s +:+ EmptyString = s.
Proof.
  induction s as [| c s IH]; [reflexivity |].
  change (String c (s +:+ EmptyString) = String c s). by rewrite IH.
Qed.

(** The validators the handler takes for the ETag are the ETag, and the
    ETag followed by [-gz] or by [-br]; a request without the header is
    compared as [undefined], which is no ETag. *)
Lemma validator_matches_iff (req : Request) (meta : Meta) :
  ifNoneMatch req = etagOf meta
  <-> exists d,
        (d = EmptyString \/ d = "-gz" \/ d = "-br")
        /\ headers req !! "if-none-match" = Some (etagOf meta +:+ d).
Proof.
  split; [| intros (d & Hd & Hh); by apply (ifNoneMatch_decorated req meta d)].
  unfold ifNoneMatch, stripCompressionSuffix.
  destruct (headers req !! "if-none-match") as [h |]; cbn [JS.String_].
  - destruct (JS.stripSuffix "-gz" h) as [r |] eqn:Hgz.
    { intros ->. apply stripSuffix_Some in Hgz as ->. exists "-gz". auto. }
    destruct (JS.stripSuffix "-br" h) as [r |] eqn:Hbr.
    { intros ->. apply stripSuffix_Some in Hbr as ->. exists "-br". auto. }
    intros ->. exists EmptyString. by rewrite append_empty_r; auto.
  - cbn. intros Hundef. exfalso.
    destruct (base64_length (specifier meta +:+ version meta)) as [k Hk].
    unfold etagOf in Hundef. rewrite <- Hundef in Hk.
    cbn [String.length] in Hk. lia.
Qed.

(** X11. A resolved request is answered [304] exactly when its
    [if-none-match] header is the ETag, or the ETag followed by [-gz] or by
    [-br]. A request without the header is never answered [304]. *)
Theorem not_modified_iff_validator (o : Options) (req : Request) (w : World)
    (u : Url) (meta meta' : Meta) :
  parseURL host (url req) = Ok u ->
  normalizeSpecifier host (requestedModule u) = Ok meta ->
  resolvePackageVersion host meta = Ok meta' ->
  existsb isNotModified (effects w (snd (npmMiddleware host o req w))) = true
  <-> exists d,
        (d = EmptyString \/ d = "-gz" \/ d = "-br")
        /\ headers req !! "if-none-match" = Some (etagOf meta' +:+ d).
Proof.
  intros Hu Hn Hr. rewrite <- validator_matches_iff.
  resolved_ways o req w Hu Hn Hr; cbn [existsb isNotModified orb];
    try (apply String.eqb_eq in Hm; by split);
    apply String.eqb_neq in Hm; by split.
Qed.

End Handler.

(** ** The load hooks of the pipeline *)
Section Pipeline.
Import NpmMiddleware Observations.

Variable host : Host.

(** X14. The pipeline never lets the compiler read a module from the disk by
    itself. Its last stage throws for every id, so the load hooks never all
    return nothing, and the build is the same whatever the reader of the
    compiler would return. *)
Theorem pipeline_never_reads_disk (provider : Plugin)
    (alias : option (gmap string string)) (cwd : option string)
    (input : string) (c : option RollupCache)
    (fs : string -> Result string) :
  (forall id, loadFirst host (pipeline provider alias cwd) id <> Ok None)
  /\ rollup (withReadFile host fs) input c (pipeline provider alias cwd)
     = rollup host input c (pipeline provider alias cwd).
Proof.
  assert (Hnever : forall h id,
            importedLoad h = importedLoad host ->
            loadFirst h (pipeline provider alias cwd) id
              = loadFirst host (pipeline provider alias cwd) id
            /\ loadFirst host (pipeline provider alias cwd) id <> Ok None).
  { intros h id Himp. unfold pipeline. cbn [loadFirst].
    assert (Hp : forall p, pluginLoad h p id = pluginLoad host p id)
      by (intros p; unfold pluginLoad; by rewrite Himp).
    rewrite !Hp.
    repeat match goal with
           | |- context [match pluginLoad host ?p id with _ => _ end] =>
               destruct (pluginLoad host p id) as [[? |] | ?] eqn:?
           end; (split; [reflexivity |]); discriminate. }
  split; [intros id; by apply (Hnever host id) |].
  unfold rollup. cbn [withReadFile moduleIds link].
  replace (loadModules (withReadFile host fs) (pipeline provider alias cwd)
             (moduleIds host input))
    with (loadModules host (pipeline provider alias cwd)
            (moduleIds host input)); [reflexivity |].
  induction (moduleIds host input) as [| i rest IH]; [reflexivity |].
  cbn [loadModules]. rewrite <- IH. unfold loadModule.
  destruct (Hnever (withReadFile host fs) i eq_refl) as [-> Hne].
  by destruct (loadFirst host (pipeline provider alias cwd) i) as [[? |] | ?].
Qed.

(** X16. Without a root ([cwd] is [undefined]) the guard cannot be
    evaluated: for every module that reaches the [npm-asset] stage the load
    hooks throw the type error of [path.join], whose message quotes the name
    of the argument, and not the refusal of the [never-disk] stage. The
    compiler rethrows it as the error of the module it could not load. *)
Theorem undefined_cwd_fails_loads (alias : option (gmap string string))
    (id : string) :
  importedPass host id ->
  no_builtins_load id = Ok None ->
  let typeError :=
    "The " +:+ JS.dquote +:+ "path" +:+ JS.dquote
    +:+ " argument must be of type string. Received undefined" in
  loadFirst host (pipeline (npmPlugin "/@npm") alias None) id
    = Throw typeError
  /\ loadModule host (pipeline (npmPlugin "/@npm") alias None) id
     = Throw ("Could not load " +:+ id +:+ importedBy host id +:+ ": "
              +:+ typeError).
Proof.
  intros Hpass Hnb typeError.
  assert (Hload : loadFirst host (pipeline (npmPlugin "/@npm") alias None) id
                  = Throw typeError).
  { unfold pipeline. cbn [loadFirst pluginLoad].
    rewrite !Hpass by (try discriminate; intros; discriminate).
    by rewrite Hnb. }
  split; [exact Hload |].
  unfold loadModule. by rewrite Hload.
Qed.

(** The load of a graph stops at the first module whose load fails. *)
Lemma loadModules_first_failure (plugins : list Plugin)
    (good rest : list string) (id e : string) :
  Forall (fun i => is_ok (loadModule host plugins i) = true) good ->
  loadModule host plugins id = Throw e ->
  loadModules host plugins (good ++ id :: rest) = Throw e.
Proof.
  intros Hgood Hid. induction Hgood as [| i good Hi _ IH].
  - cbn [app loadModules]. by rewrite Hid.
  - cbn [app loadModules]. rewrite IH.
    by destruct (loadModule host plugins i).
Qed.

(** X15. A module that the guard refuses fails the whole build. When the
    modules before it load, its joined path does not begin with the
    characters of the root and no earlier stage supplies it, the [never-disk]
    stage throws [local access not allowed], the compiler rethrows it as
    [Could not load <id>: local access not allowed] (the importer of the
    module, if any, named after the id), and [bundleNpmModule] throws that
    error right after the call of the compiler: no output is generated, no
    code is returned and [npmCache] is as before. *)
Theorem refused_module_fails_the_build (mod_ source : string)
    (alias : option (gmap string string)) (cwd : option string)
    (id file : string) (good rest : list string) (w : World) :
  source <> "unpkg" ->
  moduleIds host mod_ = (good ++ id :: rest)%list ->
  Forall (fun i =>
            is_ok (loadModule host (pipeline (npmPlugin "/@npm") alias cwd) i)
            = true) good ->
  importedPass host id ->
  no_builtins_load id = Ok None ->
  JS.path_join cwd id = Ok file ->
  JS.startsWith file (JS.String_ cwd) = false ->
  bundleNpmModule host mod_ source alias cwd w
    = (Throw ("Could not load " +:+ id +:+ importedBy host id
              +:+ ": local access not allowed"),
       logged w [ERollup mod_]).
Proof.
  intros Hs Hids Hgood Hpass Hnb Hjoin Hpre.
  rewrite bundleNpmModule_run.
  apply String.eqb_neq in Hs. rewrite Hs.
  unfold rollup. rewrite Hids.
  rewrite (loadModules_first_failure _ good rest id
             (couldNotLoad host id "local access not allowed") Hgood);
    [reflexivity |].
  unfold loadModule.
  by rewrite (loadFirst_outside_prefix host _ alias cwd id file eq_refl
                Hpass Hnb Hjoin Hpre).
Qed.

End Pipeline.

(** ** The guard of [npm-asset] on ids that do not climb *)
Section InsideTheRoot.
Import JS NpmMiddleware Observations.

Local Transparent String.prefix.

Lemma prefix_refl (s : string) : String.prefix s s = true.
Proof.
  induction s as [| c s IH]; [reflexivity |].
  cbn [String.prefix]. by destruct (ascii_dec c c).
Qed.

Lemma prefix_nil (s : string) : String.prefix EmptyString s = true.
Proof. by destruct s. Qed.

Lemma prefix_app_r (x y z : string) :
  String.prefix x y = true -> String.prefix x (y +:+ z) = true.
Proof.
  revert y. induction x as [| c x IH]; intros y; [intros _; apply prefix_nil |].
  destruct y as [| d y]; [discriminate |].
  change (String d y +:+ z) with (String d (y +:+ z)).
  cbn [String.prefix]. destruct (ascii_dec c d); [apply IH | discriminate].
Qed.

Lemma prefix_app_l (a x y : string) :
  String.prefix x y = true -> String.prefix (a +:+ x) (a +:+ y) = true.
Proof.
  intros H. induction a as [| c a IH]; [exact H |].
  change (String.prefix (String c (a +:+ x)) (String c (a +:+ y)) = true).
  cbn [String.prefix]. by destruct (ascii_dec c c).
Qed.

Lemma prefix_empty (x : string) :
  String.prefix x EmptyString = true -> x = EmptyString.
Proof. by destruct x. Qed.

Lemma splitSlash_cons (s : string) :
  exists seg segs, splitSlash s = seg :: segs.
Proof.
  induction s as [| c s (seg & segs & IH)]; [by eexists _, _ |].
  cbn [splitSlash]. rewrite IH.
  destruct (Ascii.eqb c slash); by eexists _, _.
Qed.

(** The segments of two paths joined by a slash. *)
Lemma splitSlash_app (a b : string) :
  splitSlash (a +:+ "/" +:+ b) = (splitSlash a ++ splitSlash b)%list.
Proof.
  induction a as [| c a IH]; [reflexivity |].
  change (String c a +:+ "/" +:+ b) with (String c (a +:+ "/" +:+ b)).
  cbn [splitSlash]. rewrite IH.
  destruct (Ascii.eqb c slash); [reflexivity |].
  by destruct (splitSlash_cons a) as (seg & segs & ->).
Qed.

(** Without a segment [..] the stack of [normalizeString] only grows. *)
Lemma pushSegment_grows (segs stack : list string) :
  existsb (String.eqb "..") segs = false ->
  exists extra,
    fold_left (pushSegment false) segs stack = (extra ++ stack)%list.
Proof.
  revert stack. induction segs as [| seg segs IH]; intros stack Hno.
  { by exists []. }
  cbn [existsb] in Hno. apply orb_false_elim in Hno as [Hseg Hno].
  cbn [fold_left]. unfold pushSegment at 2.
  rewrite String.eqb_sym in Hseg. rewrite Hseg.
  destruct (String.eqb seg EmptyString || String.eqb seg ".").
  - by apply IH.
  - destruct (IH (seg :: stack) Hno) as [extra ->].
    exists (extra ++ [seg])%list. by rewrite <- app_assoc.
Qed.

Lemma joinSlash_prefix (a x : list string) :
  String.prefix (joinSlash a) (joinSlash (a ++ x)) = true.
Proof.
  induction a as [| s a IH]; [apply prefix_nil |].
  destruct a as [| s' a].
  - cbn [joinSlash app]. destruct x as [| s' x]; [apply prefix_refl |].
    rewrite <- (append_empty_r s) at 1. apply prefix_app_l, prefix_nil.
  - change (String.prefix (s +:+ "/" +:+ joinSlash (s' :: a))
              (s +:+ "/" +:+ joinSlash ((s' :: a) ++ x)) = true).
    apply prefix_app_l. apply (prefix_app_l "/"). exact IH.
Qed.

(** A root in normal form: absolute, normalised, and not ending with a
    slash. It is a slash followed by its normalised segments. *)
Lemma normal_root (cwd : string) :
  path_normalize cwd = cwd ->
  isSlash (String.get 0 cwd) = true ->
  isSlash (lastChar cwd) = false ->
  cwd = "/" +:+ normalizeString cwd false
  /\ normalizeString cwd false <> EmptyString.
Proof.
  intros Hnorm Habs Htrail.
  destruct cwd as [| c cwd]; [discriminate Habs |].
  unfold path_normalize in Hnorm.
  rewrite Habs, Htrail in Hnorm. cbn [String.eqb negb] in Hnorm.
  destruct (String.eqb (normalizeString (String c cwd) false) EmptyString)
    eqn:Hr.
  - rewrite <- Hnorm in Htrail. discriminate Htrail.
  - apply String.eqb_neq in Hr. by split.
Qed.

(** X17. The guard of the [npm-asset] stage never refuses a module whose id
    has no segment [..]. With a root in normal form, the joined path of such
    an id begins with the root, and the hook supplies the module as a default
    export of its servable path: only [..] can take an id to the [never-disk]
    stage. *)
Theorem non_climbing_id_is_supplied (cwd id : string) :
  path_normalize cwd = cwd ->
  isSlash (String.get 0 cwd) = true ->
  isSlash (lastChar cwd) = false ->
  climbs id = false ->
  npm_asset_load (Some cwd) id
    = Ok (Some ("export default " +:+ dquote +:+ npmAssetSpec id +:+ dquote
                +:+ ";")).
Proof.
  intros Hnorm Habs Htrail Hno.
  destruct (normal_root cwd Hnorm Habs Htrail) as [Hcwd Hr].
  assert (Hin : exists file,
            path_join (Some cwd) id = Ok file
            /\ startsWith file cwd = true).
  { assert (Hcons : exists c cwd', cwd = String c cwd')
      by (destruct cwd; [discriminate Habs | by eexists _, _]).
    destruct Hcons as (c & cwd' & Hcons).
    set (root := cwd) in *.
    unfold path_join.
    assert (Hne0 : String.eqb root EmptyString = false)
      by (by rewrite Hcons).
    rewrite Hne0.
    destruct (String.eqb id EmptyString) eqn:Hid.
    { eexists. split; [reflexivity |].
      rewrite Hnorm. apply prefix_refl. }
    eexists. split; [reflexivity |].
    unfold startsWith, path_normalize.
    assert (Hne : String.eqb (root +:+ "/" +:+ id) EmptyString = false)
      by (by rewrite Hcons).
    rewrite Hne.
    assert (Hfirst : String.get 0 (root +:+ "/" +:+ id) = String.get 0 root)
      by (by rewrite Hcons).
    rewrite Hfirst, Habs. cbn [negb].
    assert (Hpre : String.prefix (normalizeString root false)
                     (normalizeString (root +:+ "/" +:+ id) false) = true).
    { unfold normalizeString. rewrite splitSlash_app, fold_left_app.
      destruct (pushSegment_grows (splitSlash id)
                  (fold_left (pushSegment false) (splitSlash root) []) Hno)
        as [extra ->].
      rewrite rev_app_distr. apply joinSlash_prefix. }
    destruct (String.eqb (normalizeString (root +:+ "/" +:+ id) false)
                EmptyString) eqn:Hr'.
    { apply String.eqb_eq in Hr'. rewrite Hr' in Hpre.
      by apply prefix_empty in Hpre. }
    rewrite Hcwd at 1.
    destruct (isSlash (lastChar (root +:+ "/" +:+ id)));
      apply (prefix_app_l "/"); [by apply prefix_app_r | exact Hpre]. }
  destruct Hin as (file & Hjoin & Hstart).
  unfold npm_asset_load. cbn [String_]. by rewrite Hjoin, Hstart.
Qed.

End InsideTheRoot.

(** ** The [transform] hook of [npm-asset] *)
Section Transform.
Import JS NpmAssetTransform.

Lemma lastTwo_app (r p : string) :
  2 <= String.length p -> lastTwo (r +:+ p) = lastTwo p.
Proof.
  intros Hp. induction r as [| c r IH]; [reflexivity |].
  change (String c r +:+ p) with (String c (r +:+ p)).
  rewrite <- IH.
  pose proof (length_append r p) as Hlen.
  destruct (r +:+ p) as [| x [| y q]]; cbn [String.length] in Hlen;
    [lia | lia | reflexivity].
Qed.

(** A string that ends with a suffix of two characters or more ends with
    the last two characters of the suffix. *)
Lemma endsWith_lastTwo (s p : string) :
  2 <= String.length p -> endsWith s p = true -> lastTwo s = lastTwo p.
Proof.
  intros Hp. unfold endsWith.
  destruct (stripSuffix p s) as [r |] eqn:Hs; [| discriminate].
  intros _. apply stripSuffix_Some in Hs as ->. by apply lastTwo_app.
Qed.

(** A script is not a stylesheet: the two patterns of the hook exclude
    each other. *)
Lemma script_is_not_style (id : string) :
  isScriptId id = true -> isStyleId id = false.
Proof.
  unfold isScriptId, isStyleId. cbn [existsb]. intros Hscript.
  assert (Hlast : lastTwo id = Some ("t", "s")%char
                  \/ lastTwo id = Some ("s", "x")%char
                  \/ lastTwo id = Some ("j", "s")%char).
  { repeat (apply orb_prop in Hscript as [Hscript | Hscript]);
      try discriminate Hscript;
      apply endsWith_lastTwo in Hscript; cbn [String.length]; try lia;
      rewrite Hscript; cbn; auto. }
  assert (Hno : forall p, 2 <= String.length p ->
                  lastTwo p = Some ("s", "s")%char -> endsWith id p = false).
  { intros p Hp Hss. destruct (endsWith id p) eqn:He; [| reflexivity].
    apply endsWith_lastTwo in He; [| exact Hp].
    rewrite He, Hss in Hlast. by destruct Hlast as [? | [? | ?]]. }
  rewrite !Hno; cbn [String.length]; try lia; reflexivity.
Qed.

(** X18. Inside the [transform] hook the test of [IMPLICIT_URL] and the test
    of the stylesheet extension decide nothing. The hook only transforms
    scripts, and for the id of a script every import specifier without a
    custom prefix is resolved to the same specifier behind [url:], and every
    specifier with a custom prefix is left as it is. *)
Theorem transform_resolves_by_prefix_alone (host : Host)
    (id specifier : string) :
  isScriptId id = true ->
  resolveId host id specifier
    = if hasCustomPrefix host specifier then None
      else Some ("url:" +:+ specifier).
Proof.
  intros Hscript. unfold resolveId.
  rewrite (script_is_not_style id Hscript). cbn [negb].
  rewrite orb_true_r, andb_true_r.
  by destruct (hasCustomPrefix host specifier).
Qed.

End Transform.

(** ** The order of the stages of [npmBundle] *)
Section StageOrder.
Import NpmBundle.

(** X19. The stage [npmAutoInstall] is in the pipeline of [npmBundle]
    exactly when [autoInstall] is set; it is consulted after the stage of the
    local packages, when there is one, and before [npmLoad]. *)
Theorem auto_install_stage_follows_flag (env : gmap string string)
    (root requestId : string) (autoInstall : bool) :
  let l := stages env root requestId autoInstall in
  (npmAutoInstall root ∈ l <-> autoInstall = true)
  /\ (forall i j,
        l !! i = Some (npmLocalPackage root) ->
        l !! j = Some (npmAutoInstall root) -> i < j)
  /\ (forall j k,
        l !! j = Some (npmAutoInstall root) ->
        l !! k = Some npmLoad -> j < k).
Proof.
  cbv zeta. unfold stages, plugins, DISABLE_LOCAL_NPM.
  destruct (env !! "DISABLE_LOCAL_NPM") as [[| c v] |], autoInstall;
    cbn; (split; [| split]).
  all: try (split; [done |]; intros _; rewrite !elem_of_cons; by auto 10).
  all: try (split; [| done]; rewrite !elem_of_cons, elem_of_nil;
            intros H; repeat destruct H as [H | H]; done).
  all: intros i j Hi Hj;
    repeat (destruct i as [| i]; [simplify_eq /= |]; simplify_eq /=);
    repeat (destruct j as [| j]; [simplify_eq /= |]; simplify_eq /=);
    try lia.
Qed.

End StageOrder.

(** ** The further properties on the sample registry *)
Section FurtherWitnesses.
Import NpmMiddleware Observations Samples MoreSamples.

Lemma leftPad_no_validator :
  ifNoneMatch (get "/left-pad/index.js" None) <> etagOf (leftPad "1.0.0").
Proof. intros H. vm_compute in H. discriminate H. Qed.

Lemma theme_no_validator :
  ifNoneMatch (get "/some-pkg/theme.css" None) <> etagOf (theme "1.0.0").
Proof. intros H. vm_compute in H. discriminate H. Qed.

Lemma registry_passes (id : string) :
  JS.startsWith id "left-pad" = false -> importedPass host id.
Proof.
  intros Hid p H1 H2 H3.
  destruct p; try reflexivity.
  cbn. by rewrite Hid.
Qed.

(** The sample table is as specified. *)
Lemma hostStyles_table : MimeSpec.stylesheetTable hostStyles.
Proof.
  intros p Hp.
  change (NpmMiddleware.getMimeType hostStyles p) with (styleTable p).
  unfold styleTable.
  unfold isStylesheetPath, stylesheetExtensions in Hp. cbn [existsb] in Hp.
  destruct (JS.endsWith p ".css"); [eexists; split; reflexivity |].
  destruct (JS.endsWith p ".scss"); [eexists; split; reflexivity |].
  destruct (JS.endsWith p ".sass"); [eexists; split; reflexivity |].
  destruct (JS.endsWith p ".less");
    [eexists; split; reflexivity | discriminate Hp].
Qed.

Lemma stylesheet_asset_dispatch_witness :
  exists type,
    NpmMiddleware.getMimeType hostStyles "theme.scss" = Some type
    /\ MimeSpec.isStylesheetType type = true
    /\ npmMiddleware hostStyles (options None)
         (get "/some-pkg/theme.scss" None) start
       = (Ok tt,
          logged start
            [ EResolvePackageVersion (themeScss EmptyString);
              ESetHeader "etag" (etagOf (themeScss "1.0.0"));
              ELoadPackageFile (themeScss "1.0.0");
              EWriteHead 200
                [("content-type", HStr type);
                 ("content-length", HNum 15)];
              EEnd (Some "body{color:red}") ]).
Proof.
  assert (Hne : ifNoneMatch (get "/some-pkg/theme.scss" None)
                <> etagOf (themeScss "1.0.0"))
    by (intros H; vm_compute in H; discriminate H).
  exact (proj2 (stylesheet_asset_dispatch hostStyles (options None)
                  (get "/some-pkg/theme.scss" None) start themeScssUrl
                  (themeScss EmptyString) (themeScss "1.0.0")
                  hostStyles_table eq_refl eq_refl eq_refl Hne eq_refl)).
Defined.

Lemma asset_requests_bypass_cache_and_compiler_witness :
  let w' := snd (npmMiddleware host (options None)
                   (get "/some-pkg/theme.css" None) stored) in
  npmCache w' = npmCache stored
  /\ bundles w' = bundles stored
  /\ forallb (fun e => negb (isCacheOrCompiler e)) (effects stored w') = true.
Proof.
  apply (asset_requests_bypass_cache_and_compiler host (options None)
           (get "/some-pkg/theme.css" None) stored themeUrl
           (theme EmptyString) (theme "1.0.0")); reflexivity.
Defined.

Lemma asset_load_failure_rejects_witness :
  npmMiddleware hostNoFile (options None) (get "/some-pkg/theme.css" None)
    start
  = (Throw "ENOENT",
     logged start [ EResolvePackageVersion (theme EmptyString);
                    ESetHeader "etag" (etagOf (theme "1.0.0"));
                    ELoadPackageFile (theme "1.0.0") ]).
Proof.
  apply (asset_load_failure_rejects hostNoFile (options None)
           (get "/some-pkg/theme.css" None) start themeUrl
           (theme EmptyString) (theme "1.0.0") "ENOENT");
    try reflexivity.
  exact theme_no_validator.
Defined.

Lemma cache_hit_served_witness :
  npmMiddleware host (options (Some "unpkg")) (get "/left-pad/index.js" None)
    stored
  = (Ok tt,
     logged stored
       [ EResolvePackageVersion (leftPad EmptyString);
         ESetHeader "etag" (etagOf (leftPad "1.0.0"));
         ESetHeader "content-type" "application/javascript;charset=utf-8";
         EGetCachedBundle (etagOf (leftPad "1.0.0"));
         ESendCachedBundle "/* cached */" ]).
Proof.
  apply (cache_hit_served host (options (Some "unpkg"))
           (get "/left-pad/index.js" None) stored leftPadUrl
           (leftPad EmptyString) (leftPad "1.0.0") "/* cached */");
    try reflexivity.
  exact leftPad_no_validator.
Defined.

Lemma fresh_then_cached_witness :
  let w1 := snd (npmMiddleware host (options None)
                   (get "/left-pad/index.js" None) start) in
  npmMiddleware host (options None) (get "/left-pad/index.js" None) w1
  = (Ok tt,
     logged w1
       [ EResolvePackageVersion (leftPad EmptyString);
         ESetHeader "etag" (etagOf (leftPad "1.0.0"));
         ESetHeader "content-type" "application/javascript;charset=utf-8";
         EGetCachedBundle (etagOf (leftPad "1.0.0"));
         ESendCachedBundle "export default function leftPad(){}" ]).
Proof.
  apply (fresh_then_cached host (options None)
           (get "/left-pad/index.js" None) start leftPadUrl
           (leftPad EmptyString) (leftPad "1.0.0")
           {| cache := [("left-pad/index.js",
                         "export default function leftPad(){}")];
              generate :=
                Ok [ {| fileName := "index.js";
                        code := "export default function leftPad(){}" |};
                     {| fileName := "chunk-1.js"; code := "export {};" |} ] |}
           {| fileName := "index.js";
              code := "export default function leftPad(){}" |}
           [ {| fileName := "chunk-1.js"; code := "export {};" |} ]);
    try reflexivity.
  - exact leftPad_no_validator.
  - discriminate.
Defined.

Lemma build_failure_goes_to_next_witness :
  let r := npmMiddleware hostGenerateFails (options None)
             (get "/left-pad/index.js" None) start in
  fst r = Ok tt
  /\ exists es,
       Forall (fun x => x = ERollup "left-pad/index.js" \/ x = EGenerate) es
       /\ effects start (snd r)
          = ([ EResolvePackageVersion (leftPad EmptyString);
               ESetHeader "etag" (etagOf (leftPad "1.0.0"));
               ESetHeader "content-type"
                 "application/javascript;charset=utf-8";
               EGetCachedBundle (etagOf (leftPad "1.0.0")) ]
             ++ es ++ [ENext "generate failed"])%list.
Proof.
  apply (build_failure_goes_to_next hostGenerateFails (options None)
           (get "/left-pad/index.js" None) start leftPadUrl
           (leftPad EmptyString) (leftPad "1.0.0") "generate failed");
    try reflexivity.
  exact leftPad_no_validator.
Defined.

Lemma etag_header_precedes_answer_witness :
  exists es,
    effects start
      (snd (npmMiddleware hostGenerateFails (options None)
              (get "/left-pad/index.js" None) start))
    = EResolvePackageVersion (leftPad EmptyString)
      :: ESetHeader "etag" (etagOf (leftPad "1.0.0")) :: es.
Proof.
  apply (etag_header_precedes_answer hostGenerateFails (options None)
           (get "/left-pad/index.js" None) start leftPadUrl
           (leftPad EmptyString) (leftPad "1.0.0"));
    try reflexivity.
  exact leftPad_no_validator.
Defined.

Lemma not_modified_iff_validator_witness :
  existsb isNotModified
    (effects start
       (snd (npmMiddleware host (options None)
               (get "/left-pad/index.js"
                  (Some "bGVmdC1wYWQvaW5kZXguanMxLjAuMA==-br"))
               start))) = true.
Proof.
  apply (not_modified_iff_validator host (options None)
           (get "/left-pad/index.js"
              (Some "bGVmdC1wYWQvaW5kZXguanMxLjAuMA==-br"))
           start leftPadUrl (leftPad EmptyString) (leftPad "1.0.0"));
    try reflexivity.
  exists "-br". split; [auto |]. vm_compute. reflexivity.
Defined.

Lemma unresolved_version_goes_to_next_witness :
  npmMiddleware host (options None) (get "/nope" None) start
  = (Ok tt,
     {| npmCache := None;
        bundles := ∅;
        log := [ EResolvePackageVersion
                   {| module_ := "nope"; version := EmptyString;
                      path := EmptyString; specifier := "nope" |};
                 ENext "package not found" ] |}).
Proof.
  apply (unresolved_version_goes_to_next host (options None)
           (get "/nope" None) start
           {| pathname := "/nope"; searchParams := [] |});
    reflexivity.
Defined.

Lemma refused_module_fails_the_build_witness :
  bundleNpmModule host "../../etc/passwd" "npm" None (Some "/app") start
  = (Throw "Could not load ../../etc/passwd: local access not allowed",
     logged start [ERollup "../../etc/passwd"]).
Proof.
  apply (refused_module_fails_the_build host "../../etc/passwd" "npm" None
           (Some "/app") "../../etc/passwd" "/etc/passwd" [] []);
    try reflexivity.
  - discriminate.
  - constructor.
  - by apply registry_passes.
Defined.

Lemma undefined_cwd_fails_loads_witness :
  let typeError :=
    "The " +:+ JS.dquote +:+ "path" +:+ JS.dquote
    +:+ " argument must be of type string. Received undefined" in
  loadFirst host (pipeline (npmPlugin "/@npm") None None) "index.js"
    = Throw typeError
  /\ loadModule host (pipeline (npmPlugin "/@npm") None None) "index.js"
     = Throw ("Could not load index.js: " +:+ typeError).
Proof.
  apply (undefined_cwd_fails_loads host None "index.js");
    [by apply registry_passes | reflexivity].
Defined.

Lemma non_climbing_id_is_supplied_witness :
  npm_asset_load (Some "/app") "./node_modules/foo/a.css"
  = Ok (Some ("export default " +:+ JS.dquote
              +:+ npmAssetSpec "./node_modules/foo/a.css" +:+ JS.dquote
              +:+ ";")).
Proof. apply non_climbing_id_is_supplied; reflexivity. Defined.

Lemma transform_resolves_by_prefix_alone_witness :
  NpmAssetTransform.resolveId transformHost "src/index.tsx" "./theme.css"
  = Some "url:./theme.css".
Proof.
  apply (transform_resolves_by_prefix_alone transformHost "src/index.tsx"
           "./theme.css").
  reflexivity.
Defined.

End FurtherWitnesses.
